(** * flightdup2.py: the flight dashboard script

    A shallow embedding of [load_data] and [main] of [src/flightdup2.py].

    The script is glue over three libraries (a dataframe library, a reactive
    UI framework, a charting library).  The calls it makes into them are
    modelled by what they compute on the columns the script names:

    - a loaded dataframe is a list of rows; every column the script reads is
      present and every cell holds a value of its column's type (no missing
      cells); [Price] is an integer column;
    - a group mean is the exact rational sum/count (binary floating point
      rounding is outside the model);
    - the two date/time conversions ([pd.to_datetime] followed by the [.dt]
      accessor) are taken as parameters acting cell by cell.

    The filter, [unique] and the grouped means are modelled a second time, in
    [Blank], on frames whose Airline, Source, Destination, Total_Stops and
    Price cells may be blank (NaN), with the rounding of a mean to a float64
    as a parameter; on frames without blank cell the two models agree
    ([BlankFacts.filtered_data_of_frame], [BlankFacts.groupby_mean_of_frame]). *)

From Stdlib Require Import String Ascii List ZArith NArith QArith Bool Lia Arith.
From Stdlib Require Import Permutation Sorted FinFun.
Import ListNotations.

Close Scope Q_scope.
Open Scope string_scope.
Open Scope list_scope.

(** ** The dataframe *)

Module Pandas.

(** One record of the flight-price workbook.  [Extra] holds the cells of the
    columns the script displays but never reads by name. *)
Record Row : Type := mkRow {
  Airline         : string;
  Date_of_Journey : string;
  Source          : string;
  Destination     : string;
  Route           : string;
  Dep_Time        : string;
  Duration        : string;
  Total_Stops     : string;
  Price           : Z;
  Extra           : list string
}.

Definition DataFrame : Type := list Row.

(** [pd.DataFrame()] *)
Definition empty_frame : DataFrame := [].

(** [df.empty] *)
Definition empty (df : DataFrame) : bool :=
  match df with [] => true | _ :: _ => false end.

(** *** Boolean masks: [series == v], [mask | b], [mask & mask], [df[mask]] *)

Definition series_eq (col : list string) (v : string) : list bool :=
  map (fun c => String.eqb c v) col.

Definition mask_or_scalar (m : list bool) (b : bool) : list bool :=
  map (fun x => x || b) m.

Fixpoint mask_and (m1 m2 : list bool) : list bool :=
  match m1, m2 with
  | b1 :: t1, b2 :: t2 => (b1 && b2) :: mask_and t1 t2
  | _, _ => []
  end.

Fixpoint boolean_index (df : DataFrame) (m : list bool) : DataFrame :=
  match df, m with
  | r :: df', b :: m' =>
      if b then r :: boolean_index df' m' else boolean_index df' m'
  | _, _ => []
  end.

(** *** [series.unique()]: a pass over the column with a table of the values
    seen so far; values come out in the order in which they were first met. *)

Definition seen (v : string) (table : list string) : bool :=
  existsb (String.eqb v) table.

Fixpoint unique_from (table : list string) (col : list string) : list string :=
  match col with
  | [] => []
  | v :: col' =>
      if seen v table then unique_from table col'
      else v :: unique_from (v :: table) col'
  end.

Definition unique (col : list string) : list string := unique_from [] col.

(** *** [df.groupby(keys)["Price"].mean().reset_index()]

    One pass over the rows accumulates, per key, the running sum and count of
    [Price]; the groups are then ordered by key and each sum is divided by its
    count. *)

Section GroupBy.
Variable K : Type.
Variable keq : K -> K -> bool.
Variable kle : K -> K -> bool.

Definition Acc : Type := list (K * (Z * positive)).

Fixpoint accumulate (k : K) (p : Z) (acc : Acc) : Acc :=
  match acc with
  | [] => [(k, (p, 1%positive))]
  | (k', (s, n)) :: acc' =>
      if keq k k' then (k', ((s + p)%Z, Pos.succ n)) :: acc'
      else (k', (s, n)) :: accumulate k p acc'
  end.

Fixpoint insert_group (g : K * (Z * positive)) (acc : Acc) : Acc :=
  match acc with
  | [] => [g]
  | h :: acc' =>
      if kle (fst g) (fst h) then g :: h :: acc'
      else h :: insert_group g acc'
  end.

Definition sort_groups (acc : Acc) : Acc :=
  fold_right insert_group [] acc.

Definition group_sums (key : Row -> K) (df : DataFrame) : Acc :=
  fold_left (fun acc r => accumulate (key r) (Price r) acc) df [].

Definition mean_of (g : K * (Z * positive)) : K * Q :=
  (fst g, Qred (Qmake (fst (snd g)) (snd (snd g)))).

Definition groupby_mean (key : Row -> K) (df : DataFrame) : list (K * Q) :=
  map mean_of (sort_groups (group_sums key df)).
End GroupBy.

Arguments accumulate {K} keq k p acc.
Arguments insert_group {K} kle g acc.
Arguments sort_groups {K} kle acc.
Arguments group_sums {K} keq key df.
Arguments mean_of {K} g.
Arguments groupby_mean {K} keq kle key df.

Definition pair_eqb (a b : string * string) : bool :=
  String.eqb (fst a) (fst b) && String.eqb (snd a) (snd b).

(** Tuples of a multi-key groupby are ordered lexicographically. *)
Definition pair_leb (a b : string * string) : bool :=
  match String.compare (fst a) (fst b) with
  | Lt => true
  | Eq => String.leb (snd a) (snd b)
  | Gt => false
  end.

End Pandas.

(** ** Figures of the charting library *)

Module Plotly.

Inductive Kind : Type := Box | Line | Bar | Pie | Scatter.

Inductive Cell : Type :=
| Str (s : string)
| Int (z : Z)
| Num (q : Q).

(** A figure: its kind, its title, the data columns it was given by name and
    the remaining keyword arguments. *)
Record Figure : Type := mkFigure {
  kind       : Kind;
  title      : string;
  x          : list Cell;
  y          : list Cell;
  color      : option (list Cell);
  names      : list Cell;
  hover_data : list (list Cell);
  options    : list (string * string)
}.

Definition box (x y : list Cell) (color : option (list Cell)) (title : string)
  : Figure :=
  mkFigure Box title x y color [] [] [].

Definition line (x y color : list Cell) (title : string)
    (options : list (string * string)) : Figure :=
  mkFigure Line title x y (Some color) [] [] options.

Definition bar (x y color : list Cell) (title : string)
    (options : list (string * string)) : Figure :=
  mkFigure Bar title x y (Some color) [] [] options.

Definition pie (names : list Cell) (title : string) : Figure :=
  mkFigure Pie title [] [] None names [] [].

Definition scatter (x y color : list Cell) (title : string)
    (hover_data : list (list Cell)) : Figure :=
  mkFigure Scatter title x y (Some color) [] hover_data [].

(** [fig.update_xaxes(...)] *)
Definition update_xaxes (fig : Figure) (opts : list (string * string))
  : Figure :=
  mkFigure (kind fig) (title fig) (x fig) (y fig) (color fig) (names fig)
           (hover_data fig) (options fig ++ opts).

End Plotly.

(** ** The world a run of the script acts on *)

Module Runtime.
Import Pandas.

(** What a run puts on the page, in call order. *)
Inductive Element : Type :=
| StTitle (body : string)
| StWrite (body : string)
| StError (body : string)
| StWarning (body : string)
| StSubheader (body : string)
| StDataframe (df : DataFrame)
| SidebarTitle (body : string)
| SidebarSelectbox (label : string) (options : list string) (value : string)
| SidebarMarkdown (body : string)
| StPlotlyChart (fig : Plotly.Figure).

Inductive FileState : Type :=
| Missing
| Unreadable
| Workbook (df : DataFrame).

Inductive StorageOp : Type :=
| OpRead (path : string)
| OpWrite (path : string).

Inductive Exn : Type :=
| FileNotFoundError
| ReadError.

(** [files]: the disk; [cache]: the entry of [st.cache_data] for [load_data]
    (the alerts recorded while it ran and the value it returned);
    [session]: the index picked in each select box, by label; [screen]: the
    elements rendered so far; [storage]: the disk operations performed so
    far. *)
Record World : Type := mkWorld {
  files   : string -> FileState;
  cache   : option (list string * DataFrame);
  session : string -> nat;
  screen  : list Element;
  storage : list StorageOp
}.

Inductive Outcome (A : Type) : Type :=
| Returned (a : A)
| Raised (e : Exn).
Arguments Returned {A} a.
Arguments Raised {A} e.

Definition M (A : Type) : Type := World -> Outcome A * World.

Definition ret {A} (a : A) : M A := fun w => (Returned a, w).

Definition bind {A B} (m : M A) (k : A -> M B) : M B :=
  fun w =>
    match m w with
    | (Returned a, w') => k a w'
    | (Raised e, w') => (Raised e, w')
    end.

Definition raise {A} (e : Exn) : M A := fun w => (Raised e, w).

(** [try: m  except e: handler e] *)
Definition try_except {A} (m : M A) (handler : Exn -> M A) : M A :=
  fun w =>
    match m w with
    | (Returned a, w') => (Returned a, w')
    | (Raised e, w') => handler e w'
    end.

Definition with_screen (s : list Element) (w : World) : World :=
  mkWorld (files w) (cache w) (session w) s (storage w).

Definition with_cache (c : option (list string * DataFrame)) (w : World)
  : World :=
  mkWorld (files w) c (session w) (screen w) (storage w).

Definition with_storage (l : list StorageOp) (w : World) : World :=
  mkWorld (files w) (cache w) (session w) (screen w) l.

Definition emit (e : Element) : M unit :=
  fun w => (Returned tt, with_screen (screen w ++ [e]) w).

(** [pd.read_excel(path)] *)
Definition read_excel (path : string) : M DataFrame :=
  fun w =>
    let w' := with_storage (storage w ++ [OpRead path]) w in
    match files w path with
    | Missing => (Raised FileNotFoundError, w')
    | Unreadable => (Raised ReadError, w')
    | Workbook df => (Returned df, w')
    end.

(** The alerts among the elements a cached function rendered. *)
Definition alerts_of (page : list Element) : list string :=
  flat_map (fun e => match e with StError body => [body] | _ => [] end) page.

(** [@st.cache_data]: on a hit the recorded alerts are replayed and the
    stored value returned, the body does not run; on a miss the body runs, and
    if it returns, what it rendered and returned is stored. *)
Definition cache_data (body : M DataFrame) : M DataFrame :=
  fun w =>
    match cache w with
    | Some (recorded, df) =>
        (Returned df, with_screen (screen w ++ map StError recorded) w)
    | None =>
        match body (with_screen [] w) with
        | (Returned df, w') =>
            (Returned df,
             with_cache (Some (alerts_of (screen w'), df))
                        (with_screen (screen w ++ screen w') w'))
        | (Raised e, w') =>
            (Raised e, with_screen (screen w ++ screen w') w')
        end
    end.

(** [st.sidebar.selectbox(label, options)]: renders the box and returns the
    option picked in the session (the first option when nothing valid is
    picked). *)
Definition selectbox (label : string) (options : list string) : M string :=
  fun w =>
    let value := nth (session w label) options (hd "" options) in
    (Returned value,
     with_screen (screen w ++ [SidebarSelectbox label options value]) w).

End Runtime.

Declare Scope run_scope.
Delimit Scope run_scope with run.
Notation "x <- m ;; k" := (Runtime.bind m (fun x => k))
  (at level 61, m at next level, right associativity) : run_scope.
Notation "m ;;; k" := (Runtime.bind m (fun _ => k))
  (at level 61, right associativity) : run_scope.

(** ** The script *)

Module App.
Import Pandas Runtime.
Local Open Scope run_scope.

Section Script.
(** [month_of c]: the cell [c] of [Date_of_Journey] after [pd.to_datetime],
    [.dt.to_period('M')] and [.astype(str)]. *)
Variable month_of : string -> string.
(** [hour_of c]: the cell [c] of [Dep_Time] after [pd.to_datetime] and
    [.dt.hour]. *)
Variable hour_of : string -> Z.

Definition default_filepath : string := "data/Flight_datasets.xlsx".

Definition load_data_body (filepath : string) : M DataFrame :=
  try_except
    (df <- read_excel filepath ;; ret df)
    (fun e =>
       match e with
       | FileNotFoundError =>
           emit (StError
             "Processed dataset not found. Please run the processing script first.") ;;;
           ret empty_frame
       | _ => raise e
       end).

Definition load_data (filepath : string) : M DataFrame :=
  cache_data (load_data_body filepath).

(** The mask of lines 57-61, built column by column. *)
Definition filter_mask (df : DataFrame)
    (airline_filter source_city destination_city : string) : list bool :=
  mask_and
    (mask_and
       (mask_or_scalar (series_eq (map Airline df) airline_filter)
                       (String.eqb airline_filter "All"))
       (mask_or_scalar (series_eq (map Source df) source_city)
                       (String.eqb source_city "All")))
    (mask_or_scalar (series_eq (map Destination df) destination_city)
                    (String.eqb destination_city "All")).

Definition filtered_data (df : DataFrame)
    (airline_filter source_city destination_city : string) : DataFrame :=
  boolean_index df
    (filter_mask df airline_filter source_city destination_city).

Definition str_col (f : Row -> string) (df : DataFrame) : list Plotly.Cell :=
  map (fun r => Plotly.Str (f r)) df.

Definition price_col (df : DataFrame) : list Plotly.Cell :=
  map (fun r => Plotly.Int (Price r)) df.

(** The columns added to [df] by the assignments of lines 85-86 and 148-149.
    The frame shown by [st.dataframe] and the copy made by the filter were
    taken before these assignments and do not see them. *)
Definition Month (r : Row) : string := month_of (Date_of_Journey r).
Definition Hour_of_Day (r : Row) : Z := hour_of (Dep_Time r).

Definition monthly_price (df : DataFrame) : list ((string * string) * Q) :=
  groupby_mean pair_eqb pair_leb (fun r => (Month r, Destination r)) df.

Definition avg_price_stops (filtered : DataFrame) : list (string * Q) :=
  groupby_mean String.eqb String.leb Total_Stops filtered.

Definition price_by_source (df : DataFrame) : list (string * Q) :=
  groupby_mean String.eqb String.leb Source df.

Definition price_by_airline_stops (df : DataFrame)
  : list ((string * string) * Q) :=
  groupby_mean pair_eqb pair_leb (fun r => (Airline r, Total_Stops r)) df.

Definition mean_cells {K} (g : list (K * Q)) : list Plotly.Cell :=
  map (fun kv => Plotly.Num (snd kv)) g.

Definition key_cells {K} (f : K -> string) (g : list (K * Q))
  : list Plotly.Cell :=
  map (fun kv => Plotly.Str (f (fst kv))) g.

Definition fig_price_dist (df : DataFrame) : Plotly.Figure :=
  Plotly.box (str_col Airline df) (price_col df) (Some (str_col Airline df))
             "Price Distribution by Airline".

Definition fig_price_trends (df : DataFrame) : Plotly.Figure :=
  let g := monthly_price df in
  Plotly.update_xaxes
    (Plotly.line (key_cells fst g) (mean_cells g) (key_cells snd g)
       "Price Trends by Destination"
       [("labels.Month", "Month"); ("labels.Price", "Average Price");
        ("line_shape", "linear"); ("markers", "True");
        ("template", "plotly_dark")])
    [("tickangle", "45"); ("tickmode", "array")].

Definition fig_avg_price (filtered : DataFrame) : Plotly.Figure :=
  let g := avg_price_stops filtered in
  Plotly.bar (key_cells (fun k => k) g) (mean_cells g)
             (key_cells (fun k => k) g)
             "Average Price by Total Stops" [].

Definition fig_source_dist (filtered : DataFrame) : Plotly.Figure :=
  Plotly.pie (str_col Source filtered) "Flight Distribution by Source City".

Definition fig_price_by_source (df : DataFrame) : Plotly.Figure :=
  let g := price_by_source df in
  Plotly.bar (key_cells (fun k => k) g) (mean_cells g)
             (key_cells (fun k => k) g)
             "Average Price by Source City" [].

Definition fig_price_airline_stops (df : DataFrame) : Plotly.Figure :=
  let g := price_by_airline_stops df in
  Plotly.bar (key_cells fst g) (mean_cells g) (key_cells snd g)
             "Price by Airline and Total Stops" [("barmode", "group")].

Definition fig_price_time (df : DataFrame) : Plotly.Figure :=
  Plotly.box (map (fun r => Plotly.Int (Hour_of_Day r)) df) (price_col df)
             None "Price Distribution by Time of Day".

Definition fig_route_dist (df : DataFrame) : Plotly.Figure :=
  Plotly.pie (str_col Route df) "Flight Distribution by Route".

Definition fig_duration_price (filtered : DataFrame) : Plotly.Figure :=
  Plotly.scatter (str_col Duration filtered) (price_col filtered)
                 (str_col Airline filtered)
                 "Duration vs Price by Airline"
                 [str_col Source filtered; str_col Destination filtered].

Definition main : M unit :=
  emit (StTitle "Flight Dashboard") ;;;
  emit (StWrite "This dashboard displays the flight data insights and allows stakeholders to filter and search the records.") ;;;
  df <- load_data default_filepath ;;
  if empty df then
    emit (StWarning "No data to display. Please ensure the dataset is processed and available.") ;;;
    ret tt
  else
    emit (StWrite "Dataset Preview:") ;;;
    emit (StDataframe df) ;;;
    emit (SidebarTitle "Flight Data Insights") ;;;
    airline_filter <-
      selectbox "Select Airline" ("All" :: unique (map Airline df)) ;;
    source_city <-
      selectbox "Select Source City" ("All" :: unique (map Source df)) ;;
    destination_city <-
      selectbox "Select Destination City"
                ("All" :: unique (map Destination df)) ;;
    let filtered :=
      filtered_data df airline_filter source_city destination_city in
    emit (StSubheader ("Flights by Airline: " ++ airline_filter ++ ", from "
                       ++ source_city ++ " to " ++ destination_city)) ;;;
    emit (StDataframe filtered) ;;;
    emit (StSubheader "Price Distribution by Airline") ;;;
    emit (StPlotlyChart (fig_price_dist df)) ;;;
    emit (StSubheader "Price Trends by Destination") ;;;
    emit (StPlotlyChart (fig_price_trends df)) ;;;
    emit (StSubheader "Average Price by Total Stops") ;;;
    emit (StPlotlyChart (fig_avg_price filtered)) ;;;
    emit (StSubheader "Distribution of Flights by Source") ;;;
    emit (StPlotlyChart (fig_source_dist filtered)) ;;;
    emit (StSubheader "Price by Source City") ;;;
    emit (StPlotlyChart (fig_price_by_source df)) ;;;
    emit (StSubheader "Price by Airline and Total Stops") ;;;
    emit (StPlotlyChart (fig_price_airline_stops df)) ;;;
    emit (StSubheader "Price Distribution by Time of Day") ;;;
    emit (StPlotlyChart (fig_price_time df)) ;;;
    emit (StSubheader "Flights by Route") ;;;
    emit (StPlotlyChart (fig_route_dist df)) ;;;
    emit (StSubheader "Duration vs Price") ;;;
    emit (StPlotlyChart (fig_duration_price filtered)) ;;;
    emit (SidebarMarkdown "This dashboard provides insights into flight data.").

(** One execution of the script: the page and the log of disk operations
    start empty; the disk, the cache and the session are what they are. *)
Definition fresh (w : World) : World :=
  with_storage [] (with_screen [] w).

Definition run (w : World) : Outcome unit * World := main (fresh w).

(** The page rendered by one execution. *)
Definition page (w : World) : list Element := screen (snd (run w)).

(** What [load_data] delivers in a world: the value it returns (or the
    exception it lets through) and the elements it renders. *)
Definition loaded (w : World) : Outcome DataFrame * list Element :=
  let r := load_data default_filepath (fresh w) in
  (fst r, screen (snd r)).
End Script.

End App.

(** ** The vocabulary of the specification *)

Module Spec.
Import Pandas Runtime App.


Definition keepsb (airline source destination : string) (r : Row) : bool :=
  (String.eqb airline "All" || String.eqb (Airline r) airline) &&
  (String.eqb source "All" || String.eqb (Source r) source) &&
  (String.eqb destination "All" || String.eqb (Destination r) destination).

(** Position of the first occurrence of [v] in [l] ([length l] if none). *)
Fixpoint index_of (v : string) (l : list string) : nat :=
  match l with
  | [] => 0
  | u :: l' => if String.eqb u v then 0 else S (index_of v l')
  end.

(** [out] lists the distinct values of [col] in order of first occurrence. *)
Definition first_occurrence_order (col out : list string) : Prop :=
  NoDup out /\
  (forall v, In v out <-> In v col) /\
  (forall u v, In u col -> In v col ->
     (index_of u out < index_of v out <-> index_of u col < index_of v col)).

Definition sumZ (l : list Z) : Z := fold_right Z.add 0%Z l.

Definition arithmetic_mean (prices : list Z) : Q :=
  (inject_Z (sumZ prices) / inject_Z (Z.of_nat (length prices)))%Q.

Definition rows_with {K} (eq_dec : forall a b : K, {a = b} + {a <> b})
    (key : Row -> K) (k : K) (df : DataFrame) : DataFrame :=
  filter (fun r => if eq_dec (key r) k then true else false) df.

(** [out] has one row per distinct key of [df], holding the mean price of
    the rows of [df] with that key. *)
Definition group_means {K} (eq_dec : forall a b : K, {a = b} + {a <> b})
    (key : Row -> K) (df : DataFrame) (out : list (K * Q)) : Prop :=
  NoDup (map fst out) /\
  (forall k, In k (map fst out) <-> exists r, In r df /\ key r = k) /\
  (forall k q, In (k, q) out ->
     (q == arithmetic_mean (map Price (rows_with eq_dec key k df)))%Q).

(** The running sums and counts [acc] are those of the rows [rows] read so
    far, one entry per key met. *)
Definition tallies {K} (eq_dec : forall a b : K, {a = b} + {a <> b})
    (key : Row -> K) (rows : DataFrame) (acc : list (K * (Z * positive)))
  : Prop :=
  NoDup (map fst acc) /\
  (forall k, In k (map fst acc) <-> exists r, In r rows /\ key r = k) /\
  (forall k s n, In (k, (s, n)) acc ->
     s = sumZ (map Price (rows_with eq_dec key k rows)) /\
     Pos.to_nat n = length (rows_with eq_dec key k rows)).

Definition pair_dec (a b : string * string) : {a = b} + {a <> b}.
Proof. decide equality; apply string_dec. Defined.

(** *** Reading a rendered page *)

Definition charts (page : list Element) : list Plotly.Figure :=
  flat_map (fun e => match e with StPlotlyChart f => [f] | _ => [] end) page.

Definition select_boxes (page : list Element) : list (string * list string) :=
  flat_map (fun e => match e with
                     | SidebarSelectbox label options _ => [(label, options)]
                     | _ => []
                     end) page.

Definition tables (page : list Element) : list DataFrame :=
  flat_map (fun e => match e with StDataframe df => [df] | _ => [] end) page.

Definition is_view (e : Element) : bool :=
  match e with
  | StDataframe _ | StPlotlyChart _ => true
  | _ => false
  end.

(** The tables and figures of a page, in order. *)
Definition views (page : list Element) : list Element := filter is_view page.

(** Titles, tables, warnings and figures. *)
Definition is_output (e : Element) : bool :=
  match e with
  | StTitle _ | StSubheader _ | SidebarTitle _
  | StDataframe _ | StWarning _ | StPlotlyChart _ => true
  | _ => false
  end.

Definition outputs (page : list Element) : list Element :=
  filter is_output page.

Definition kind_eqb (a b : Plotly.Kind) : bool :=
  match a, b with
  | Plotly.Box, Plotly.Box | Plotly.Line, Plotly.Line
  | Plotly.Bar, Plotly.Bar | Plotly.Pie, Plotly.Pie
  | Plotly.Scatter, Plotly.Scatter => true
  | _, _ => false
  end.

Definition has_kind (k : Plotly.Kind) (page : list Element) : Prop :=
  exists f, In f (charts page) /\ Plotly.kind f = k.

(** The three selections agree in two sessions. *)
Definition same_selections (s1 s2 : string -> nat) : Prop :=
  s1 "Select Airline" = s2 "Select Airline" /\
  s1 "Select Source City" = s2 "Select Source City" /\
  s1 "Select Destination City" = s2 "Select Destination City".

(** Positions, among the views of the full dashboard, of the filtered table
    and of the three figures drawn from it. *)
Definition filtered_view_positions : list nat := [1; 4; 5; 10]%nat.

(** *** The page of one run, spelled out *)

Definition picked (ses : string -> nat) (label : string)
    (options : list string) : string :=
  nth (ses label) options (hd "" options).

Definition header : list Element :=
  [StTitle "Flight Dashboard";
   StWrite "This dashboard displays the flight data insights and allows stakeholders to filter and search the records."].

Definition no_data : list Element :=
  [StWarning "No data to display. Please ensure the dataset is processed and available."].

Definition dashboard (month_of : string -> string) (hour_of : string -> Z)
    (df : DataFrame) (ses : string -> nat) : list Element :=
  let airlines := "All" :: unique (map Airline df) in
  let sources := "All" :: unique (map Source df) in
  let destinations := "All" :: unique (map Destination df) in
  let a := picked ses "Select Airline" airlines in
  let s := picked ses "Select Source City" sources in
  let d := picked ses "Select Destination City" destinations in
  let filtered := filtered_data df a s d in
  [StWrite "Dataset Preview:";
   StDataframe df;
   SidebarTitle "Flight Data Insights";
   SidebarSelectbox "Select Airline" airlines a;
   SidebarSelectbox "Select Source City" sources s;
   SidebarSelectbox "Select Destination City" destinations d;
   StSubheader ("Flights by Airline: " ++ a ++ ", from " ++ s ++ " to " ++ d);
   StDataframe filtered;
   StSubheader "Price Distribution by Airline";
   StPlotlyChart (fig_price_dist df);
   StSubheader "Price Trends by Destination";
   StPlotlyChart (fig_price_trends month_of df);
   StSubheader "Average Price by Total Stops";
   StPlotlyChart (fig_avg_price filtered);
   StSubheader "Distribution of Flights by Source";
   StPlotlyChart (fig_source_dist filtered);
   StSubheader "Price by Source City";
   StPlotlyChart (fig_price_by_source df);
   StSubheader "Price by Airline and Total Stops";
   StPlotlyChart (fig_price_airline_stops df);
   StSubheader "Price Distribution by Time of Day";
   StPlotlyChart (fig_price_time hour_of df);
   StSubheader "Flights by Route";
   StPlotlyChart (fig_route_dist df);
   StSubheader "Duration vs Price";
   StPlotlyChart (fig_duration_price filtered);
   SidebarMarkdown "This dashboard provides insights into flight data."].

(** What [main] renders after [load_data] has delivered [o]. *)
Definition rest_of_page (month_of : string -> string) (hour_of : string -> Z)
    (o : Outcome DataFrame) (ses : string -> nat) : list Element :=
  match o with
  | Raised _ => []
  | Returned df =>
      if empty df then no_data else dashboard month_of hour_of df ses
  end.

Definition outcome_of_main (o : Outcome DataFrame) : Outcome unit :=
  match o with
  | Raised e => Raised e
  | Returned _ => Returned tt
  end.

(** Entries of [l] at the positions [idxs]. *)
Definition pick {A} (idxs : list nat) (l : list A) : list A :=
  flat_map (fun i => match nth_error l i with Some a => [a] | None => [] end)
           idxs.

(** Positions, among the figures of the full dashboard, of the six drawn
    from the whole frame. *)
Definition full_frame_positions : list nat := [0; 1; 4; 5; 6; 7]%nat.

Definition full_frame_figures (page : list Element) : list Plotly.Figure :=
  pick full_frame_positions (charts page).

End Spec.

(** ** A small workbook to run the script on *)

Module Sample.
Import Pandas Runtime App.

Definition r1 : Row :=
  mkRow "IndiGo" "2019-03-24" "Banglore" "New Delhi" "BLR-DEL" "22:20"
        "2h 50m" "non-stop" 3897 ["01:10"; "No info"].
Definition r2 : Row :=
  mkRow "Air India" "2019-05-01" "Kolkata" "Banglore" "CCU-IXR-BBI-BLR" "05:50"
        "7h 25m" "2 stops" 7662 ["13:15"; "No info"].
Definition r3 : Row :=
  mkRow "IndiGo" "2019-03-01" "Banglore" "New Delhi" "BLR-DEL" "09:00"
        "2h 50m" "non-stop" 4000 ["11:50"; "No info"].

Definition flights : DataFrame := [r1; r2; r3].

(** Cells written as "YYYY-MM-DD" and "HH:MM". *)
Definition month_of (cell : string) : string := substring 0 7 cell.

Definition digit (c : ascii) : Z := (Z.of_nat (nat_of_ascii c) - 48)%Z.

Definition hour_of (cell : string) : Z :=
  match cell with
  | String a (String b _) => (10 * digit a + digit b)%Z
  | _ => 0%Z
  end.

Definition disk (state : FileState) (path : string) : FileState :=
  if String.eqb path default_filepath then state else Missing.

Definition no_pick (label : string) : nat := 0%nat.

Definition pick_indigo (label : string) : nat :=
  if String.eqb label "Select Airline" then 1%nat else 0%nat.

(** The server just started: nothing cached, the workbook on disk. *)
Definition cold : World :=
  mkWorld (disk (Workbook flights)) None no_pick [] [].

Definition cold_indigo : World :=
  mkWorld (disk (Workbook flights)) None pick_indigo [] [].

(** The server just started and the workbook is not there. *)
Definition cold_missing : World :=
  mkWorld (disk Missing) None no_pick [] [].

(** The workbook is removed after a first run has loaded it. *)
Definition removed_after_load : World :=
  mkWorld (disk Missing) (cache (snd (run month_of hour_of cold)))
          no_pick [] [].

End Sample.

(** ** Further vocabulary: reruns, shown selections, key order *)

Module Further.
Import Pandas Runtime App Spec.

(** The values shown in the select boxes of a page, in order. *)
Definition selections_shown (page : list Element) : list string :=
  flat_map (fun e => match e with
                     | SidebarSelectbox _ _ value => [value]
                     | _ => []
                     end) page.

(** Positions, among the figures of the full dashboard, of the three drawn
    from the filtered table. *)
Definition filtered_positions : list nat := [2; 3; 8]%nat.

Definition filtered_figures (page : list Element) : list Plotly.Figure :=
  pick filtered_positions (charts page).

(** Keys in ascending order, neighbour by neighbour. *)
Definition ascending {K} (kle : K -> K -> bool) (keys : list K) : Prop :=
  Sorted (fun a b => kle a b = true) keys.

(** All prices of a frame lie between [lo] and [hi]. *)
Definition prices_within (lo hi : Z) (df : DataFrame) : Prop :=
  forall r, In r df -> (lo <= Price r <= hi)%Z.

Definition means_within {K} (lo hi : Z) (table : list (K * Q)) : Prop :=
  forall k q, In (k, q) table -> (inject_Z lo <= q <= inject_Z hi)%Q.

(** The text of the alert of [load_data]. *)
Definition not_found : string :=
  "Processed dataset not found. Please run the processing script first.".

(** The dataset file cannot be read as a workbook. *)
Definition cold_unreadable : World :=
  mkWorld (Sample.disk Unreadable) None Sample.no_pick [] [].

(** The dataset file is a workbook without rows. *)
Definition cold_blank : World :=
  mkWorld (Sample.disk (Workbook [])) None Sample.no_pick [] [].

(** The workbook is put in place after a first run has missed it. *)
Definition restored_after_miss : World :=
  mkWorld (Sample.disk (Workbook Sample.flights))
          (cache (snd (run Sample.month_of Sample.hour_of Sample.cold_missing)))
          Sample.no_pick [] [].

End Further.

(** ** Frames with blank cells

    The frames of [Pandas] have every cell present.  Here are the same
    operations on frames in which the Airline, Source, Destination,
    Total_Stops and Price cells may be blank, as [pd.read_excel] delivers
    them.  The date and time cells stay present: their conversions are
    parameters acting cell by cell. *)

Module Blank.

(** [None] is the NaN of a blank cell. *)
Record NaRow : Type := mkNaRow {
  Airline         : option string;
  Date_of_Journey : string;
  Source          : option string;
  Destination     : option string;
  Route           : string;
  Dep_Time        : string;
  Duration        : string;
  Total_Stops     : option string;
  Price           : option Z;
  Extra           : list string
}.

Definition NaFrame : Type := list NaRow.

(** A frame of [Pandas] seen as a frame without blank cell. *)
Definition of_row (r : Pandas.Row) : NaRow :=
  mkNaRow (Some (Pandas.Airline r)) (Pandas.Date_of_Journey r)
          (Some (Pandas.Source r)) (Some (Pandas.Destination r))
          (Pandas.Route r) (Pandas.Dep_Time r) (Pandas.Duration r)
          (Some (Pandas.Total_Stops r)) (Some (Pandas.Price r))
          (Pandas.Extra r).

Definition of_frame (df : Pandas.DataFrame) : NaFrame := map of_row df.

(** [cell == v]: NaN equals nothing, not even NaN. *)
Definition cell_eq (c v : option string) : bool :=
  match c, v with
  | Some a, Some b => String.eqb a b
  | _, _ => false
  end.

(** [series == v] *)
Definition series_eq (col : list (option string)) (v : option string)
  : list bool :=
  map (fun c => cell_eq c v) col.

(** [v == "All"] for a picked option [v], which may be the NaN option. *)
Definition is_all (v : option string) : bool := cell_eq v (Some "All").

Fixpoint boolean_index (df : NaFrame) (m : list bool) : NaFrame :=
  match df, m with
  | r :: df', b :: m' =>
      if b then r :: boolean_index df' m' else boolean_index df' m'
  | _, _ => []
  end.

(** Lines 57-61. *)
Definition filter_mask (df : NaFrame)
    (airline_filter source_city destination_city : option string)
  : list bool :=
  Pandas.mask_and
    (Pandas.mask_and
       (Pandas.mask_or_scalar (series_eq (map Airline df) airline_filter)
                              (is_all airline_filter))
       (Pandas.mask_or_scalar (series_eq (map Source df) source_city)
                              (is_all source_city)))
    (Pandas.mask_or_scalar (series_eq (map Destination df) destination_city)
                           (is_all destination_city)).

Definition filtered_data (df : NaFrame)
    (airline_filter source_city destination_city : option string)
  : NaFrame :=
  boolean_index df
    (filter_mask df airline_filter source_city destination_city).

(** [series.unique()]: the blanks count as one value, which is kept. *)
Definition cell_same (a b : option string) : bool :=
  match a, b with
  | Some x, Some y => String.eqb x y
  | None, None => true
  | _, _ => false
  end.

Definition seen (v : option string) (table : list (option string)) : bool :=
  existsb (cell_same v) table.

Fixpoint unique_from (table col : list (option string))
  : list (option string) :=
  match col with
  | [] => []
  | v :: col' =>
      if seen v table then unique_from table col'
      else v :: unique_from (v :: table) col'
  end.

Definition unique (col : list (option string)) : list (option string) :=
  unique_from [] col.

(** The options of a select box: ["All"] + list(col.unique()). *)
Definition options_of (col : list (option string)) : list (option string) :=
  Some "All" :: unique col.

(** [df.groupby(keys)["Price"].mean().reset_index()] with the defaults
    [dropna=True] (a row with a blank key cell belongs to no group) and
    [skipna=True] (a blank price is left out of the sum and of the count; the
    mean of no price at all is NaN).  The quotient is a float64: [rnd] is the
    rounding of the exact quotient to the nearest float64 (sums of integer
    prices are exact in float64 below 2^53). *)
Section GroupBy.
Variable K : Type.
Variable keq : K -> K -> bool.
Variable kle : K -> K -> bool.
Variable rnd : Q -> Q.

Definition Tally : Type := (Z * N)%type.

Definition tally (p : option Z) (t : Tally) : Tally :=
  match p with
  | Some z => ((fst t + z)%Z, N.succ (snd t))
  | None => t
  end.

Fixpoint accumulate (k : K) (p : option Z) (acc : list (K * Tally))
  : list (K * Tally) :=
  match acc with
  | [] => [(k, tally p (0%Z, 0%N))]
  | (k', t) :: acc' =>
      if keq k k' then (k', tally p t) :: acc'
      else (k', t) :: accumulate k p acc'
  end.

Fixpoint insert_group (g : K * Tally) (acc : list (K * Tally))
  : list (K * Tally) :=
  match acc with
  | [] => [g]
  | h :: acc' =>
      if kle (fst g) (fst h) then g :: h :: acc'
      else h :: insert_group g acc'
  end.

Definition sort_groups (acc : list (K * Tally)) : list (K * Tally) :=
  fold_right insert_group [] acc.

Definition group_sums (key : NaRow -> option K) (df : NaFrame)
  : list (K * Tally) :=
  fold_left (fun acc r =>
               match key r with
               | Some k => accumulate k (Price r) acc
               | None => acc
               end) df [].

Definition mean_of (g : K * Tally) : K * option Q :=
  (fst g,
   match snd (snd g) with
   | N0 => None
   | Npos n => Some (rnd (Qred (Qmake (fst (snd g)) n)))
   end).

Definition groupby_mean (key : NaRow -> option K) (df : NaFrame)
  : list (K * option Q) :=
  map mean_of (sort_groups (group_sums key df)).
End GroupBy.

Arguments tally p t : simpl nomatch.
Arguments accumulate {K} keq k p acc.
Arguments insert_group {K} kle g acc.
Arguments sort_groups {K} kle acc.
Arguments group_sums {K} keq key df.
Arguments mean_of {K} rnd g.
Arguments groupby_mean {K} keq kle rnd key df.

(** The key of a row in a groupby on two columns: blank as soon as one of
    the two cells is. *)
Definition both (a b : option string) : option (string * string) :=
  match a, b with
  | Some x, Some y => Some (x, y)
  | _, _ => None
  end.

Section Script.
Variable month_of : string -> string.
Variable rnd : Q -> Q.

Definition Month (r : NaRow) : string := month_of (Date_of_Journey r).

Definition monthly_price (df : NaFrame)
  : list ((string * string) * option Q) :=
  groupby_mean Pandas.pair_eqb Pandas.pair_leb rnd
               (fun r => both (Some (Month r)) (Destination r)) df.

Definition avg_price_stops (filtered : NaFrame) : list (string * option Q) :=
  groupby_mean String.eqb String.leb rnd Total_Stops filtered.

Definition price_by_source (df : NaFrame) : list (string * option Q) :=
  groupby_mean String.eqb String.leb rnd Source df.

Definition price_by_airline_stops (df : NaFrame)
  : list ((string * string) * option Q) :=
  groupby_mean Pandas.pair_eqb Pandas.pair_leb rnd
               (fun r => both (Airline r) (Total_Stops r)) df.
End Script.

(** *** Vocabulary *)

(** The non-blank prices of the rows of [df] whose key is [k]. *)
Definition prices_with {K} (eq_dec : forall a b : K, {a = b} + {a <> b})
    (key : NaRow -> option K) (k : K) (df : NaFrame) : list Z :=
  flat_map (fun r =>
              match key r, Price r with
              | Some k', Some p => if eq_dec k' k then [p] else []
              | _, _ => []
              end) df.

(** [out] has one row per distinct non-blank key of [df]; it holds the
    rounded mean of the non-blank prices of the rows with that key, NaN if
    there is none. *)
Definition group_means {K} (eq_dec : forall a b : K, {a = b} + {a <> b})
    (rnd : Q -> Q) (key : NaRow -> option K) (df : NaFrame)
    (out : list (K * option Q)) : Prop :=
  NoDup (map fst out) /\
  (forall k, In k (map fst out) <-> exists r, In r df /\ key r = Some k) /\
  (forall k v, In (k, v) out ->
     match prices_with eq_dec key k df with
     | [] => v = None
     | p :: ps =>
         exists m, (m == Spec.arithmetic_mean (p :: ps))%Q /\
                   v = Some (rnd m)
     end).

Definition tallies {K} (eq_dec : forall a b : K, {a = b} + {a <> b})
    (key : NaRow -> option K) (rows : NaFrame) (acc : list (K * (Z * N)))
  : Prop :=
  NoDup (map fst acc) /\
  (forall k, In k (map fst acc) <-> exists r, In r rows /\ key r = Some k) /\
  (forall k s n, In (k, (s, n)) acc ->
     s = Spec.sumZ (prices_with eq_dec key k rows) /\
     N.to_nat n = length (prices_with eq_dec key k rows)).

(** A running sum with its count in [Pandas], as a tally. *)
Definition counted {K} (g : K * (Z * positive)) : K * (Z * N) :=
  (fst g, (fst (snd g), Npos (snd (snd g)))).

(** Every key cell of [cells] has its row in the table [out]. *)
Definition every_key_has_a_row {K} (cells : list (option K))
    (out : list (K * option Q)) : Prop :=
  forall c, In c cells -> In c (map (fun g => Some (fst g)) out).

(** A row passes the three picked options. *)
Definition keepsb (airline source destination : option string) (r : NaRow)
  : bool :=
  (cell_eq (Airline r) airline || is_all airline) &&
  (cell_eq (Source r) source || is_all source) &&
  (cell_eq (Destination r) destination || is_all destination).

Definition present (c : option string) : bool :=
  match c with Some _ => true | None => false end.

(** *** A workbook with a blank Source cell *)

Definition n1 : NaRow :=
  mkNaRow (Some "IndiGo") "2019-03-24" (Some "Banglore") (Some "New Delhi")
          "BLR-DEL" "22:20" "2h 50m" (Some "non-stop") (Some 3897%Z) [].
Definition n2 : NaRow :=
  mkNaRow (Some "Air India") "2019-05-01" None (Some "Banglore")
          "CCU-IXR-BBI-BLR" "05:50" "7h 25m" (Some "2 stops") (Some 7662%Z) [].

Definition with_blank_source : NaFrame := [n1; n2].

(** A rounding to run the script with: none. *)
Definition exact (q : Q) : Q := q.

End Blank.

(** ** Facts about the dataframe operations *)

Module PandasFacts.
Import Pandas Spec.

Lemma seen_true_iff (v : string) (table : list string) :
  seen v table = true <-> In v table.
Proof.
  unfold seen. rewrite existsb_exists. split.
  - intros [u [Hin Heq]]. apply String.eqb_eq in Heq. now subst.
  - intros Hin. exists v. split; [assumption | apply String.eqb_refl].
Qed.

Lemma seen_false_iff (v : string) (table : list string) :
  seen v table = false <-> ~ In v table.
Proof.
  rewrite <- seen_true_iff. destruct (seen v table); split; congruence.
Qed.

Lemma unique_from_In (col table : list string) (v : string) :
  In v (unique_from table col) <-> In v col /\ ~ In v table.
Proof.
  revert table. induction col as [|c col IH]; intros table; simpl.
  - tauto.
  - destruct (seen c table) eqn:Hs.
    + apply seen_true_iff in Hs. rewrite IH. split.
      * tauto.
      * intros [[Hc | Hin] Hnot]; [subst; contradiction | tauto].
    + apply seen_false_iff in Hs. simpl. rewrite IH. simpl. split.
      * intros [Hc | [Hin Hnot]]; [subst; tauto | tauto].
      * intros [[Hc | Hin] Hnot]; [now left |].
        destruct (string_dec c v) as [Heq | Hne]; [now left | right].
        split; [assumption | intros [H | H]; contradiction].
Qed.

Lemma unique_from_NoDup (col table : list string) :
  NoDup (unique_from table col).
Proof.
  revert table. induction col as [|c col IH]; intros table; simpl.
  - constructor.
  - destruct (seen c table); [apply IH |].
    constructor; [| apply IH].
    rewrite unique_from_In. simpl. tauto.
Qed.

Lemma index_of_head (v : string) (l : list string) : index_of v (v :: l) = 0.
Proof. simpl. now rewrite String.eqb_refl. Qed.

Lemma index_of_tail (u v : string) (l : list string) :
  u <> v -> index_of v (u :: l) = S (index_of v l).
Proof.
  intros Hne. simpl. destruct (String.eqb u v) eqn:E; [| reflexivity].
  apply String.eqb_eq in E. contradiction.
Qed.

Lemma unique_from_order (col table : list string) (u v : string) :
  In u (unique_from table col) -> In v (unique_from table col) ->
  (index_of u (unique_from table col) < index_of v (unique_from table col)
   <-> index_of u col < index_of v col).
Proof.
  revert table. induction col as [|c col IH]; intros table; simpl.
  - intros [].
  - destruct (seen c table) eqn:Hs.
    + intros Hu Hv.
      assert (Hcu : c <> u).
      { intros ->. apply unique_from_In in Hu. apply seen_true_iff in Hs. tauto. }
      assert (Hcv : c <> v).
      { intros ->. apply unique_from_In in Hv. apply seen_true_iff in Hs. tauto. }
      apply String.eqb_neq in Hcu, Hcv. rewrite Hcu, Hcv.
      pose proof (IH table Hu Hv) as IHc. lia.
    + intros Hu Hv.
      destruct (String.eqb c u) eqn:Eu; destruct (String.eqb c v) eqn:Ev.
      * apply String.eqb_eq in Eu, Ev. subst. rewrite index_of_head. lia.
      * apply String.eqb_eq in Eu. apply String.eqb_neq in Ev. subst.
        rewrite index_of_head, (index_of_tail _ _ _ Ev). lia.
      * apply String.eqb_eq in Ev. apply String.eqb_neq in Eu. subst.
        rewrite index_of_head, (index_of_tail _ _ _ Eu). lia.
      * apply String.eqb_neq in Eu, Ev.
        rewrite (index_of_tail _ _ _ Eu), (index_of_tail _ _ _ Ev).
        destruct Hu as [Hu | Hu]; [contradiction |].
        destruct Hv as [Hv | Hv]; [contradiction |].
        pose proof (IH (c :: table) Hu Hv) as IHc. lia.
Qed.

(** [unique] returns the distinct values in order of first occurrence. *)
Lemma unique_first_occurrence_order (col : list string) :
  first_occurrence_order col (unique col).
Proof.
  unfold first_occurrence_order, unique. split; [apply unique_from_NoDup |].
  split.
  - intros v. rewrite unique_from_In. simpl. tauto.
  - intros u v Hu Hv. apply unique_from_order;
      rewrite unique_from_In; simpl; tauto.
Qed.


Lemma mask_and_map {A} (f g : A -> bool) (l : list A) :
  mask_and (map f l) (map g l) = map (fun a => f a && g a) l.
Proof. induction l as [|a l IH]; simpl; [reflexivity | now rewrite IH]. Qed.

Lemma boolean_index_map (p : Row -> bool) (df : DataFrame) :
  boolean_index df (map p df) = filter p df.
Proof.
  induction df as [|r df IH]; simpl; [reflexivity |].
  destruct (p r); now rewrite IH.
Qed.

Lemma filter_mask_pointwise (df : DataFrame) (a s d : string) :
  App.filter_mask df a s d =
  map (fun r => (String.eqb (Airline r) a || String.eqb a "All")
                && (String.eqb (Source r) s || String.eqb s "All")
                && (String.eqb (Destination r) d || String.eqb d "All")) df.
Proof.
  unfold App.filter_mask, mask_or_scalar, series_eq.
  rewrite !map_map.
  rewrite (mask_and_map
             (fun r => String.eqb (Airline r) a || String.eqb a "All")
             (fun r => String.eqb (Source r) s || String.eqb s "All")).
  now rewrite (mask_and_map
             (fun r => (String.eqb (Airline r) a || String.eqb a "All")
                       && (String.eqb (Source r) s || String.eqb s "All"))
             (fun r => String.eqb (Destination r) d || String.eqb d "All")).
Qed.

Lemma filtered_data_filter (df : DataFrame) (a s d : string) :
  App.filtered_data df a s d = filter (keepsb a s d) df.
Proof.
  unfold App.filtered_data. rewrite filter_mask_pointwise, boolean_index_map.
  apply filter_ext. intros r. unfold keepsb.
  now rewrite (orb_comm (String.eqb (Airline r) a)),
              (orb_comm (String.eqb (Source r) s)),
              (orb_comm (String.eqb (Destination r) d)).
Qed.

End PandasFacts.

(** ** Facts about the grouped mean *)

Module GroupByFacts.
Import Pandas Spec.

Section Generic.
Variable K : Type.
Variable keq : K -> K -> bool.
Variable kle : K -> K -> bool.
Variable eq_dec : forall a b : K, {a = b} + {a <> b}.
Hypothesis keq_eq : forall a b, keq a b = true <-> a = b.
Variable key : Row -> K.

Lemma accumulate_keys_old (k : K) (p : Z) (acc : list (K * (Z * positive))) :
  In k (map fst acc) -> map fst (accumulate keq k p acc) = map fst acc.
Proof.
  induction acc as [|[k' [s n]] acc IH]; simpl; [intros [] |].
  intros Hin. destruct (keq k k') eqn:E; simpl; [reflexivity |].
  f_equal. apply IH. destruct Hin as [Hk | Hin]; [| assumption].
  subst. assert (keq k k = true) by now apply keq_eq. congruence.
Qed.

Lemma accumulate_keys_new (k : K) (p : Z) (acc : list (K * (Z * positive))) :
  ~ In k (map fst acc) ->
  accumulate keq k p acc = acc ++ [(k, (p, 1%positive))].
Proof.
  induction acc as [|[k' [s n]] acc IH]; simpl; [reflexivity |].
  intros Hnot. destruct (keq k k') eqn:E.
  - apply keq_eq in E. subst. tauto.
  - f_equal. apply IH. tauto.
Qed.

Lemma accumulate_In (k : K) (p : Z) (acc : list (K * (Z * positive)))
    (k' : K) (s' : Z) (n' : positive) :
  NoDup (map fst acc) ->
  In (k', (s', n')) (accumulate keq k p acc) ->
  (k' <> k /\ In (k', (s', n')) acc) \/
  (k' = k /\ exists s n, In (k, (s, n)) acc /\
                         s' = (s + p)%Z /\ n' = Pos.succ n) \/
  (k' = k /\ ~ In k (map fst acc) /\ s' = p /\ n' = 1%positive).
Proof.
  induction acc as [|[k0 [s0 n0]] acc IH]; simpl; intros Hnd Hin.
  - destruct Hin as [Hin | []]. inversion Hin; subst.
    right; right. tauto.
  - inversion Hnd as [|? ? Hnot Hnd']; subst.
    destruct (keq k k0) eqn:E.
    + apply keq_eq in E. subst k0.
      destruct Hin as [Hin | Hin].
      * inversion Hin; subst. right; left. split; [reflexivity |].
        exists s0, n0. tauto.
      * left. split; [| now right].
        intros ->. apply Hnot. change k with (fst (k, (s', n'))).
        now apply in_map.
    + assert (Hne : k <> k0).
      { intros ->. assert (keq k0 k0 = true) by now apply keq_eq.
        congruence. }
      destruct Hin as [Hin | Hin].
      * inversion Hin; subst. left. split; [congruence | now left].
      * destruct (IH Hnd' Hin) as [[H1 H2] | [[H1 [s [n [H2 H3]]]] | [H1 [H2 H3]]]].
        -- left. tauto.
        -- right; left. split; [assumption |]. exists s, n. tauto.
        -- right; right. split; [assumption |]. split; [| assumption].
           intros [Hk | Hk]; [congruence | contradiction].
Qed.

Lemma rows_with_snoc (k : K) (rows : DataFrame) (r : Row) :
  rows_with eq_dec key k (rows ++ [r]) =
  rows_with eq_dec key k rows ++ (if eq_dec (key r) k then [r] else []).
Proof.
  unfold rows_with. rewrite filter_app. simpl.
  now destruct (eq_dec (key r) k).
Qed.

Lemma sumZ_app (l1 l2 : list Z) : sumZ (l1 ++ l2) = (sumZ l1 + sumZ l2)%Z.
Proof. unfold sumZ. induction l1 as [|a l1 IH]; simpl; lia. Qed.

Lemma tallies_nil : tallies eq_dec key [] [].
Proof.
  unfold tallies. simpl. split; [constructor |]. split.
  - intros k. split; [intros [] | intros [r [[] _]]].
  - intros k s n [].
Qed.

Lemma tallies_step (rows : DataFrame) (acc : list (K * (Z * positive)))
    (r : Row) :
  tallies eq_dec key rows acc ->
  tallies eq_dec key (rows ++ [r]) (accumulate keq (key r) (Price r) acc).
Proof.
  intros (Hnd & Hkeys & Hsums).
  assert (Hk : forall k, In k (map fst (accumulate keq (key r) (Price r) acc))
                         <-> In k (map fst acc) \/ k = key r).
  { intros k. destruct (in_dec eq_dec (key r) (map fst acc)) as [Hin | Hnot].
    - rewrite accumulate_keys_old by assumption.
      split; [tauto | intros [H | ->]; assumption].
    - rewrite accumulate_keys_new by assumption.
      rewrite map_app, in_app_iff. simpl. split; intros [H | H]; try tauto.
      + destruct H as [H | []]. now right.
      + right. now left. }
  split; [| split].
  - destruct (in_dec eq_dec (key r) (map fst acc)) as [Hin | Hnot].
    + now rewrite accumulate_keys_old.
    + rewrite accumulate_keys_new by assumption. rewrite map_app. simpl.
      apply (Permutation_NoDup (l := key r :: map fst acc)).
      * apply Permutation_cons_append.
      * now constructor.
  - intros k. rewrite Hk, Hkeys. split.
    + intros [[r' [Hin Hr']] | ->].
      * exists r'. split; [apply in_or_app; now left | assumption].
      * exists r. split; [apply in_or_app; right; now left | reflexivity].
    + intros [r' [Hin Hr']]. apply in_app_or in Hin.
      destruct Hin as [Hin | [-> | []]]; [left; eauto | right; now symmetry].
  - intros k s n Hin. rewrite rows_with_snoc, map_app, sumZ_app, length_app.
    apply accumulate_In in Hin; [| assumption].
    destruct Hin as [[Hne Hin] | [[-> [s0 [n0 [Hin [-> ->]]]]] | [-> [Hnot [-> ->]]]]].
    + destruct (eq_dec (key r) k) as [E | _]; [symmetry in E; contradiction |].
      destruct (Hsums _ _ _ Hin) as [-> ->]. simpl. split; lia.
    + destruct (eq_dec (key r) (key r)) as [_ | E]; [| contradiction].
      destruct (Hsums _ _ _ Hin) as [-> Hn]. simpl. split; lia.
    + destruct (eq_dec (key r) (key r)) as [_ | E]; [| contradiction].
      assert (Hempty : rows_with eq_dec key (key r) rows = []).
      { unfold rows_with.
        destruct (filter (fun r0 => if eq_dec (key r0) (key r) then true else false) rows)
          as [|r0 l] eqn:F; [reflexivity |].
        assert (Hr0 : In r0 (r0 :: l)) by now left.
        rewrite <- F in Hr0. apply filter_In in Hr0. destruct Hr0 as [Hr0 E0].
        destruct (eq_dec (key r0) (key r)) as [E1 | _]; [| discriminate].
        exfalso. apply Hnot. apply Hkeys. eauto. }
      rewrite Hempty. simpl. split; lia.
Qed.

Lemma fold_accumulate_tallies (df rows : DataFrame)
    (acc : list (K * (Z * positive))) :
  tallies eq_dec key rows acc ->
  tallies eq_dec key (rows ++ df)
    (fold_left (fun acc r => accumulate keq (key r) (Price r) acc) df acc).
Proof.
  revert rows acc. induction df as [|r df IH]; intros rows acc Ht; simpl.
  - now rewrite app_nil_r.
  - replace (rows ++ r :: df) with ((rows ++ [r]) ++ df)
      by now rewrite <- app_assoc.
    apply IH. now apply tallies_step.
Qed.

Lemma group_sums_tallies (df : DataFrame) :
  tallies eq_dec key df (group_sums keq key df).
Proof. apply (fold_accumulate_tallies df [] []). apply tallies_nil. Qed.

Lemma insert_group_perm (g : K * (Z * positive))
    (acc : list (K * (Z * positive))) :
  Permutation (insert_group kle g acc) (g :: acc).
Proof.
  induction acc as [|h acc IH]; simpl; [reflexivity |].
  destruct (kle (fst g) (fst h)); [reflexivity |].
  rewrite IH. apply perm_swap.
Qed.

Lemma sort_groups_perm (acc : list (K * (Z * positive))) :
  Permutation (sort_groups kle acc) acc.
Proof.
  unfold sort_groups. induction acc as [|g acc IH]; simpl; [reflexivity |].
  rewrite insert_group_perm. now constructor.
Qed.

Lemma mean_of_arithmetic_mean (s : Z) (n : positive) (prices : list Z) :
  s = sumZ prices -> Pos.to_nat n = length prices ->
  (Qred (Qmake s n) == arithmetic_mean prices)%Q.
Proof.
  intros -> Hn. unfold arithmetic_mean.
  rewrite Qred_correct, <- Hn, positive_nat_Z. apply Qmake_Qdiv.
Qed.

(** The grouped mean has one row per distinct key, holding the mean price of
    the rows with that key. *)
Lemma groupby_mean_group_means (df : DataFrame) :
  group_means eq_dec key df (groupby_mean keq kle key df).
Proof.
  destruct (group_sums_tallies df) as (Hnd & Hkeys & Hsums).
  pose proof (sort_groups_perm (group_sums keq key df)) as Hperm.
  assert (Hfst : map fst (groupby_mean keq kle key df)
                 = map fst (sort_groups kle (group_sums keq key df))).
  { unfold groupby_mean. rewrite map_map. apply map_ext. now intros [k sn]. }
  unfold group_means. rewrite Hfst. split; [| split].
  - apply (Permutation_NoDup (l := map fst (group_sums keq key df)));
      [| assumption].
    apply Permutation_map. now symmetry.
  - intros k. rewrite <- Hkeys. split; apply Permutation_in;
      apply Permutation_map; [assumption | now symmetry].
  - intros k q Hin. unfold groupby_mean in Hin. apply in_map_iff in Hin.
    destruct Hin as [[k' [s n]] [Heq Hin]]. unfold mean_of in Heq. simpl in Heq.
    inversion Heq; subst.
    apply (Permutation_in _ Hperm) in Hin.
    destruct (Hsums _ _ _ Hin) as [Hs Hn].
    apply mean_of_arithmetic_mean; [assumption | now rewrite length_map].
Qed.

End Generic.
End GroupByFacts.

(** ** Facts about a run of the script *)

Module RunFacts.
Import Pandas Runtime App Spec.

Section Run.
Variable month_of : string -> string.
Variable hour_of : string -> Z.

(** [load_data], case by case. *)
Lemma load_data_cases (w : World) :
  load_data default_filepath w =
  match cache w with
  | Some (recorded, df) =>
      (Returned df, with_screen (screen w ++ map StError recorded) w)
  | None =>
      match files w default_filepath with
      | Missing =>
          (Returned empty_frame,
           mkWorld (files w)
             (Some (["Processed dataset not found. Please run the processing script first."],
                    empty_frame))
             (session w)
             (screen w ++
              [StError "Processed dataset not found. Please run the processing script first."])
             (storage w ++ [OpRead default_filepath]))
      | Unreadable =>
          (Raised ReadError,
           mkWorld (files w) None (session w) (screen w ++ [])
                   (storage w ++ [OpRead default_filepath]))
      | Workbook df =>
          (Returned df,
           mkWorld (files w) (Some ([], df)) (session w) (screen w ++ [])
                   (storage w ++ [OpRead default_filepath]))
      end
  end.
Proof.
  destruct w as [fs c ses scr sto].
  unfold load_data, cache_data, load_data_body, try_except, bind, read_excel,
    ret, raise, emit, with_screen, with_cache, with_storage.
  cbn [files cache session screen storage].
  destruct c as [[recorded df]|]; [reflexivity |].
  destruct (fs default_filepath); reflexivity.
Qed.

(** The page, the outcome and the final world of a run, in terms of what
    [load_data] delivers. *)
Lemma run_spec (w : World) :
  let l := load_data default_filepath (fresh w) in
  run month_of hour_of w =
  (outcome_of_main (fst l),
   mkWorld (files w) (cache (snd l)) (session w)
     (header ++ screen (snd l)
             ++ rest_of_page month_of hour_of (fst l) (session w))
     (storage (snd l))).
Proof.
  destruct w as [fs c ses scr sto].
  cbv zeta. unfold run, fresh, with_storage, with_screen.
  cbn [files cache session screen storage].
  unfold main, bind at 1 2, emit at 1 2, with_screen.
  cbn [files cache session screen storage app].
  unfold bind at 1. rewrite !load_data_cases.
  cbn [files cache session screen storage].
  destruct c as [[recorded df]|]; [| destruct (fs default_filepath) as [| |df]];
    cbn [fst snd outcome_of_main rest_of_page
         files cache session screen storage with_screen];
    try reflexivity;
    try (destruct df as [|r df]);
    cbn [empty empty_frame];
    cbv beta iota zeta delta
      [bind emit selectbox ret with_screen files cache session screen storage];
    unfold no_data, dashboard, picked, header;
    cbv zeta;
    rewrite <- ?app_assoc; cbn [app]; reflexivity.
Qed.

Lemma loaded_alerts (w : World) :
  exists alerts, snd (loaded w) = map StError alerts.
Proof.
  unfold loaded. cbn [snd]. rewrite load_data_cases.
  destruct w as [fs c ses scr sto].
  unfold fresh, with_storage, with_screen.
  cbn [files cache session screen storage].
  destruct c as [[recorded df]|]; [| destruct (fs default_filepath)];
    cbn [snd screen app].
  - now exists recorded.
  - now exists ["Processed dataset not found. Please run the processing script first."].
  - now exists [].
  - now exists [].
Qed.

(** The page of a run: the header, what [load_data] shows, and the rest. *)
Lemma page_of_run (w : World) :
  screen (snd (run month_of hour_of w)) =
  header ++ snd (loaded w)
         ++ rest_of_page month_of hour_of (fst (loaded w)) (session w).
Proof. pose proof (run_spec w) as H. cbv zeta in H. now rewrite H. Qed.

Lemma outcome_of_run (w : World) :
  fst (run month_of hour_of w) = outcome_of_main (fst (loaded w)).
Proof. pose proof (run_spec w) as H. cbv zeta in H. now rewrite H. Qed.

Lemma charts_app (p q : list Element) : charts (p ++ q) = charts p ++ charts q.
Proof. apply flat_map_app. Qed.

Lemma tables_app (p q : list Element) : tables (p ++ q) = tables p ++ tables q.
Proof. apply flat_map_app. Qed.

Lemma select_boxes_app (p q : list Element) :
  select_boxes (p ++ q) = select_boxes p ++ select_boxes q.
Proof. apply flat_map_app. Qed.

Lemma views_app (p q : list Element) : views (p ++ q) = views p ++ views q.
Proof. apply filter_app. Qed.

Lemma outputs_app (p q : list Element) :
  outputs (p ++ q) = outputs p ++ outputs q.
Proof. apply filter_app. Qed.

Lemma alerts_hold_nothing (alerts : list string) :
  charts (map StError alerts) = [] /\ tables (map StError alerts) = [] /\
  select_boxes (map StError alerts) = [] /\ views (map StError alerts) = [] /\
  outputs (map StError alerts) = [].
Proof.
  induction alerts as [|a alerts (Hc & Ht & Hs & Hv & Ho)];
    repeat split; try reflexivity; assumption.
Qed.

(** What can be read on the page of a run is read on the rest of the page:
    the header and the alerts of [load_data] hold no figure, table or select
    box. *)
Lemma read_rest_of_page (w : World) :
  let page := screen (snd (run month_of hour_of w)) in
  let rest := rest_of_page month_of hour_of (fst (loaded w)) (session w) in
  charts page = charts rest /\ tables page = tables rest /\
  select_boxes page = select_boxes rest /\ views page = views rest.
Proof.
  cbv zeta. rewrite page_of_run.
  destruct (loaded_alerts w) as [alerts ->].
  destruct (alerts_hold_nothing alerts) as (Hc & Ht & Hs & Hv & _).
  rewrite !charts_app, !tables_app, !select_boxes_app, !views_app.
  rewrite Hc, Ht, Hs, Hv. repeat split; reflexivity.
Qed.

Lemma charts_dashboard (df : DataFrame) (ses : string -> nat) :
  charts (dashboard month_of hour_of df ses) =
  let filtered :=
    filtered_data df
      (picked ses "Select Airline" ("All" :: unique (map Airline df)))
      (picked ses "Select Source City" ("All" :: unique (map Source df)))
      (picked ses "Select Destination City"
              ("All" :: unique (map Destination df))) in
  [fig_price_dist df; fig_price_trends month_of df; fig_avg_price filtered;
   fig_source_dist filtered; fig_price_by_source df;
   fig_price_airline_stops df; fig_price_time hour_of df; fig_route_dist df;
   fig_duration_price filtered].
Proof. reflexivity. Qed.

Lemma views_dashboard (df : DataFrame) (ses : string -> nat) :
  views (dashboard month_of hour_of df ses) =
  let filtered :=
    filtered_data df
      (picked ses "Select Airline" ("All" :: unique (map Airline df)))
      (picked ses "Select Source City" ("All" :: unique (map Source df)))
      (picked ses "Select Destination City"
              ("All" :: unique (map Destination df))) in
  [StDataframe df; StDataframe filtered;
   StPlotlyChart (fig_price_dist df);
   StPlotlyChart (fig_price_trends month_of df);
   StPlotlyChart (fig_avg_price filtered);
   StPlotlyChart (fig_source_dist filtered);
   StPlotlyChart (fig_price_by_source df);
   StPlotlyChart (fig_price_airline_stops df);
   StPlotlyChart (fig_price_time hour_of df);
   StPlotlyChart (fig_route_dist df);
   StPlotlyChart (fig_duration_price filtered)].
Proof. reflexivity. Qed.

Lemma select_boxes_dashboard (df : DataFrame) (ses : string -> nat) :
  select_boxes (dashboard month_of hour_of df ses) =
  [("Select Airline", "All" :: unique (map Airline df));
   ("Select Source City", "All" :: unique (map Source df));
   ("Select Destination City", "All" :: unique (map Destination df))].
Proof. reflexivity. Qed.

Lemma dashboard_same_selections (df : DataFrame) (s1 s2 : string -> nat) :
  same_selections s1 s2 ->
  dashboard month_of hour_of df s1 = dashboard month_of hour_of df s2.
Proof.
  intros (Ha & Hs & Hd). unfold dashboard, picked. now rewrite Ha, Hs, Hd.
Qed.

Lemma rest_nonempty (df : DataFrame) (ses : string -> nat) :
  df <> [] ->
  rest_of_page month_of hour_of (Returned df) ses =
  dashboard month_of hour_of df ses.
Proof. intros Hne. destruct df; [contradiction | reflexivity]. Qed.

End Run.
End RunFacts.

(** ** The claims of the specification *)

Module Claims.
Import Pandas Runtime App Spec PandasFacts GroupByFacts RunFacts.

Lemma pair_eqb_eq (a b : string * string) : pair_eqb a b = true <-> a = b.
Proof.
  destruct a as [a1 a2], b as [b1 b2]. unfold pair_eqb. simpl.
  rewrite andb_true_iff, !String.eqb_eq. split.
  - now intros [-> ->].
  - intros H. now inversion H.
Qed.


(** C10: with "All" selected in the three boxes the filter is the identity:
    [filtered_data] is the whole frame, row for row. *)
Theorem C10_all_selected_is_identity (df : DataFrame) :
  filtered_data df "All" "All" "All" = df.
Proof.
  rewrite filtered_data_filter.
  induction df as [|r df IH]; simpl; [reflexivity | now rewrite IH].
Qed.

Section Runs.
Variable month_of : string -> string.
Variable hour_of : string -> Z.

(** C3, amended: for every non-empty loaded frame the script displays nine
    chart views: two box plots, one line chart, three bar charts, two pie
    charts and one scatter plot. *)
Theorem C3_nine_chart_views (w : World) (df : DataFrame) :
  fst (loaded w) = Returned df -> df <> [] ->
  length (charts (page month_of hour_of w)) = 9 /\
  map Plotly.kind (charts (page month_of hour_of w)) =
    [Plotly.Box; Plotly.Line; Plotly.Bar; Plotly.Pie; Plotly.Bar;
     Plotly.Bar; Plotly.Box; Plotly.Pie; Plotly.Scatter].
Proof.
  intros Hload Hne. unfold page.
  destruct (read_rest_of_page month_of hour_of w) as (-> & _).
  rewrite Hload, rest_nonempty, charts_dashboard by assumption.
  split; reflexivity.
Qed.

(** C4: for every non-empty loaded frame the displayed charts include a box
    plot, a line chart, a bar chart, a pie chart and a scatter plot. *)
Theorem C4_five_kinds_of_chart (w : World) (df : DataFrame) :
  fst (loaded w) = Returned df -> df <> [] ->
  has_kind Plotly.Box (page month_of hour_of w) /\ has_kind Plotly.Line (page month_of hour_of w) /\
  has_kind Plotly.Bar (page month_of hour_of w) /\ has_kind Plotly.Pie (page month_of hour_of w) /\
  has_kind Plotly.Scatter (page month_of hour_of w).
Proof.
  intros Hload Hne. unfold has_kind, page.
  destruct (read_rest_of_page month_of hour_of w) as (-> & _).
  rewrite Hload, rest_nonempty, charts_dashboard by assumption.
  cbv zeta. repeat split.
  - exists (fig_price_dist df). split; [now left | reflexivity].
  - exists (fig_price_trends month_of df).
    split; [right; now left | reflexivity].
  - exists (fig_price_by_source df).
    split; [do 4 right; now left | reflexivity].
  - exists (fig_route_dist df). split; [do 7 right; now left | reflexivity].
  - eexists. split; [do 8 right; left; reflexivity | reflexivity].
Qed.

(** C5: for every non-empty loaded frame the script renders exactly three
    select boxes, for the airline, the source city and the destination city,
    and the options of each are "All" followed by the distinct values of the
    Airline, Source and Destination column in order of first occurrence. *)
Theorem C5_three_filter_widgets (w : World) (df : DataFrame) :
  fst (loaded w) = Returned df -> df <> [] ->
  exists airlines sources destinations,
    select_boxes (page month_of hour_of w) =
      [("Select Airline", "All" :: airlines);
       ("Select Source City", "All" :: sources);
       ("Select Destination City", "All" :: destinations)] /\
    first_occurrence_order (map Airline df) airlines /\
    first_occurrence_order (map Source df) sources /\
    first_occurrence_order (map Destination df) destinations.
Proof.
  intros Hload Hne. unfold page.
  destruct (read_rest_of_page month_of hour_of w) as (_ & _ & -> & _).
  rewrite Hload, rest_nonempty, select_boxes_dashboard by assumption.
  exists (unique (map Airline df)), (unique (map Source df)),
         (unique (map Destination df)).
  split; [reflexivity |].
  split; [| split]; apply unique_first_occurrence_order.
Qed.

Lemma rest_same_selections (o : Outcome DataFrame) (s1 s2 : string -> nat) :
  same_selections s1 s2 ->
  rest_of_page month_of hour_of o s1 = rest_of_page month_of hour_of o s2.
Proof.
  intros Hsel. destruct o as [df|e]; [| reflexivity]. simpl.
  destruct (empty df); [reflexivity |]. now apply dashboard_same_selections.
Qed.

(** C6: two runs in which [load_data] delivers the same frame and the three
    selections are the same end the same way and render the same titles,
    tables, warnings and figures, in the same order; when [load_data] also
    shows the same alerts, the two pages are the same element for element. *)
Theorem C6_rerun_is_deterministic (w1 w2 : World) :
  fst (loaded w1) = fst (loaded w2) ->
  same_selections (session w1) (session w2) ->
  fst (run month_of hour_of w1) = fst (run month_of hour_of w2) /\
  outputs (page month_of hour_of w1) = outputs (page month_of hour_of w2) /\
  (snd (loaded w1) = snd (loaded w2) ->
   page month_of hour_of w1 = page month_of hour_of w2).
Proof.
  intros Hload Hsel. unfold page. rewrite !outcome_of_run, !page_of_run.
  rewrite Hload, (rest_same_selections _ _ _ Hsel).
  split; [reflexivity |]. split.
  - destruct (loaded_alerts w1) as [a1 ->], (loaded_alerts w2) as [a2 ->].
    rewrite !outputs_app.
    destruct (alerts_hold_nothing a1) as (_ & _ & _ & _ & ->).
    destruct (alerts_hold_nothing a2) as (_ & _ & _ & _ & ->).
    reflexivity.
  - now intros ->.
Qed.

(** C7: a run leaves the disk as it found it; the disk operations of a run
    are those of [load_data], namely none (the frame was cached) or one read
    of the dataset file; no run performs a write. *)
Theorem C7_no_storage_beyond_the_load (w : World) :
  files (snd (run month_of hour_of w)) = files w /\
  storage (snd (run month_of hour_of w))
    = storage (snd (load_data default_filepath (fresh w))) /\
  (storage (snd (run month_of hour_of w)) = [] \/
   storage (snd (run month_of hour_of w)) = [OpRead default_filepath]) /\
  (forall path, ~ In (OpWrite path) (storage (snd (run month_of hour_of w)))).
Proof.
  pose proof (run_spec month_of hour_of w) as H. cbv zeta in H. rewrite H.
  cbn [snd files storage]. clear H.
  assert (Hs : storage (snd (load_data default_filepath (fresh w))) = [] \/
               storage (snd (load_data default_filepath (fresh w)))
                 = [OpRead default_filepath]).
  { rewrite load_data_cases. destruct w as [fs c ses scr sto].
    unfold fresh, with_storage, with_screen.
    cbn [files cache session screen storage].
    destruct c as [[recorded df]|]; [now left |].
    destruct (fs default_filepath); now right. }
  split; [reflexivity |]. split; [reflexivity |]. split; [assumption |].
  intros path Hin. destruct Hs as [Hs | Hs]; rewrite Hs in Hin.
  - destruct Hin.
  - destruct Hin as [Hin | []]. discriminate.
Qed.

(** C8, amended: if the dataset file does not exist and no non-empty frame is
    cached from an earlier load, [load_data] returns an empty frame, and
    [main] returns normally after the header, the alerts of [load_data] and
    the warning, with no table, no select box and no chart on the page; when
    nothing at all is cached, the read is attempted, the FileNotFoundError is
    caught and its alert is the only one. *)
Theorem C8_missing_file_without_cached_frame (w : World) :
  files w default_filepath = Missing ->
  (forall recorded df, cache w = Some (recorded, df) -> df = []) ->
  fst (loaded w) = Returned empty_frame /\
  fst (run month_of hour_of w) = Returned tt /\
  (exists alerts,
     page month_of hour_of w = header ++ map StError alerts ++ no_data) /\
  tables (page month_of hour_of w) = [] /\
  select_boxes (page month_of hour_of w) = [] /\
  charts (page month_of hour_of w) = [] /\
  (cache w = None ->
   page month_of hour_of w =
     header ++ [StError "Processed dataset not found. Please run the processing script first."]
            ++ no_data).
Proof.
  intros Hmissing Hcache.
  assert (Hl : fst (loaded w) = Returned empty_frame /\
               (cache w = None ->
                snd (loaded w) =
                  [StError "Processed dataset not found. Please run the processing script first."])).
  { unfold loaded. cbn [fst snd]. rewrite load_data_cases.
    destruct w as [fs c ses scr sto].
    unfold fresh, with_storage, with_screen in *.
    cbn [files cache session screen storage] in *.
    destruct c as [[recorded df]|].
    - rewrite (Hcache recorded df eq_refl). split; [reflexivity | discriminate].
    - rewrite Hmissing. split; reflexivity. }
  destruct Hl as [Hl Hcold].
  destruct (read_rest_of_page month_of hour_of w) as (Hc & Ht & Hs & _).
  unfold page. rewrite Hc, Ht, Hs, outcome_of_run, page_of_run, Hl.
  cbn [rest_of_page empty empty_frame outcome_of_main].
  split; [reflexivity |]. split; [reflexivity |]. split.
  - destruct (loaded_alerts w) as [alerts ->]. now exists alerts.
  - repeat split; try reflexivity. intros Hnone. now rewrite (Hcold Hnone).
Qed.

(** C9: two runs on the same loaded frame, whatever the selections in each,
    show the same six figures drawn from the whole frame (price distribution
    by airline, monthly price trends, average price by source, price by
    airline and stops, price by time of day, routes); among the tables and
    figures of the two pages only the filtered table and the three figures
    drawn from it (positions 1, 4, 5 and 10) can differ. *)
Theorem C9_full_frame_figures_ignore_selections (w1 w2 : World) :
  fst (loaded w1) = fst (loaded w2) ->
  full_frame_figures (page month_of hour_of w1)
    = full_frame_figures (page month_of hour_of w2) /\
  (forall i, ~ In i filtered_view_positions ->
     nth_error (views (page month_of hour_of w1)) i
       = nth_error (views (page month_of hour_of w2)) i) /\
  (forall df, fst (loaded w1) = Returned df -> df <> [] ->
     full_frame_figures (page month_of hour_of w1) =
       [fig_price_dist df; fig_price_trends month_of df;
        fig_price_by_source df; fig_price_airline_stops df;
        fig_price_time hour_of df; fig_route_dist df]).
Proof.
  intros Hload. unfold full_frame_figures, page.
  destruct (read_rest_of_page month_of hour_of w1) as (-> & _ & _ & ->).
  destruct (read_rest_of_page month_of hour_of w2) as (-> & _ & _ & ->).
  rewrite Hload. destruct (fst (loaded w2)) as [df|e].
  - destruct df as [|r df].
    + repeat split; try reflexivity. intros df [=] Hne. congruence.
    + cbn [rest_of_page empty]. rewrite !charts_dashboard, !views_dashboard.
      cbv zeta. split; [reflexivity |]. split.
      * intros i Hi. unfold filtered_view_positions in Hi. simpl in Hi.
        do 11 (destruct i as [|i]; [try reflexivity; exfalso; tauto |]).
        reflexivity.
      * intros df' [=] _. subst df'. reflexivity.
  - repeat split; try reflexivity. intros df [=].
Qed.

End Runs.

(** *** The claims on the sample workbook *)

(** Against C3 as stated: the workbook loads with three rows and the page
    holds nine charts, not twelve. *)
Lemma C3_sample_page_has_not_twelve_charts :
  fst (loaded Sample.cold) = Returned Sample.flights /\
  Sample.flights <> [] /\
  length (charts (page Sample.month_of Sample.hour_of Sample.cold)) <> 12.
Proof.
  split; [reflexivity |]. split; [discriminate |].
  vm_compute. discriminate.
Qed.

Lemma C3_nine_chart_views_witness :
  fst (loaded Sample.cold) = Returned Sample.flights /\
  Sample.flights <> [] /\
  length (charts (page Sample.month_of Sample.hour_of Sample.cold)) = 9.
Proof.
  split; [reflexivity |]. split; [discriminate |].
  apply (C3_nine_chart_views Sample.month_of Sample.hour_of
           Sample.cold Sample.flights); [reflexivity | discriminate].
Defined.

Lemma C4_five_kinds_of_chart_witness :
  fst (loaded Sample.cold) = Returned Sample.flights /\
  Sample.flights <> [] /\
  has_kind Plotly.Scatter (page Sample.month_of Sample.hour_of Sample.cold).
Proof.
  split; [reflexivity |]. split; [discriminate |].
  apply (C4_five_kinds_of_chart Sample.month_of Sample.hour_of
           Sample.cold Sample.flights); [reflexivity | discriminate].
Defined.

Lemma C5_three_filter_widgets_witness :
  fst (loaded Sample.cold) = Returned Sample.flights /\
  Sample.flights <> [] /\
  exists airlines sources destinations,
    select_boxes (page Sample.month_of Sample.hour_of Sample.cold) =
      [("Select Airline", "All" :: airlines);
       ("Select Source City", "All" :: sources);
       ("Select Destination City", "All" :: destinations)] /\
    first_occurrence_order (map Airline Sample.flights) airlines /\
    first_occurrence_order (map Source Sample.flights) sources /\
    first_occurrence_order (map Destination Sample.flights) destinations.
Proof.
  split; [reflexivity |]. split; [discriminate |].
  apply (C5_three_filter_widgets Sample.month_of Sample.hour_of
           Sample.cold Sample.flights); [reflexivity | discriminate].
Defined.

(** A cold start with the workbook on disk, and a rerun after the workbook
    was removed, with the same selections. *)
Lemma C6_rerun_is_deterministic_witness :
  fst (loaded Sample.cold) = fst (loaded Sample.removed_after_load) /\
  same_selections (session Sample.cold) (session Sample.removed_after_load) /\
  outputs (page Sample.month_of Sample.hour_of Sample.cold)
    = outputs (page Sample.month_of Sample.hour_of Sample.removed_after_load).
Proof.
  split; [reflexivity |]. split; [repeat split |].
  apply (C6_rerun_is_deterministic Sample.month_of Sample.hour_of
           Sample.cold Sample.removed_after_load);
    [reflexivity | repeat split].
Defined.

(** Against C8 as stated: the workbook is gone from the disk, and the page
    still shows the preview, the filtered table, the three select boxes and
    the nine charts, from the cached frame. *)
Lemma C8_removed_workbook_is_still_shown :
  files Sample.removed_after_load default_filepath = Missing /\
  fst (loaded Sample.removed_after_load) = Returned Sample.flights /\
  tables (page Sample.month_of Sample.hour_of Sample.removed_after_load)
    = [Sample.flights; Sample.flights] /\
  length (select_boxes
            (page Sample.month_of Sample.hour_of Sample.removed_after_load))
    = 3 /\
  length (charts
            (page Sample.month_of Sample.hour_of Sample.removed_after_load))
    = 9.
Proof. repeat split. Qed.

Lemma C8_missing_file_without_cached_frame_witness :
  files Sample.cold_missing default_filepath = Missing /\
  cache Sample.cold_missing = None /\
  fst (run Sample.month_of Sample.hour_of Sample.cold_missing) = Returned tt /\
  page Sample.month_of Sample.hour_of Sample.cold_missing =
    header ++ [StError "Processed dataset not found. Please run the processing script first."]
           ++ no_data.
Proof.
  split; [reflexivity |]. split; [reflexivity |].
  destruct (C8_missing_file_without_cached_frame
              Sample.month_of Sample.hour_of Sample.cold_missing)
    as (_ & Hrun & _ & _ & _ & _ & Hpage).
  - reflexivity.
  - intros recorded df Hc. discriminate Hc.
  - split; [exact Hrun | exact (Hpage eq_refl)].
Defined.

(** Nothing picked in one run, the second airline picked in the other. *)
Lemma C9_full_frame_figures_ignore_selections_witness :
  fst (loaded Sample.cold) = fst (loaded Sample.cold_indigo) /\
  session Sample.cold "Select Airline"
    <> session Sample.cold_indigo "Select Airline" /\
  full_frame_figures (page Sample.month_of Sample.hour_of Sample.cold)
    = full_frame_figures
        (page Sample.month_of Sample.hour_of Sample.cold_indigo).
Proof.
  split; [reflexivity |]. split; [discriminate |].
  exact (proj1 (C9_full_frame_figures_ignore_selections
                  Sample.month_of Sample.hour_of
                  Sample.cold Sample.cold_indigo eq_refl)).
Defined.

End Claims.

(** ** More about the grouped mean: key order, key set, range of the means *)

Module GroupByMore.
Import Pandas Spec Further GroupByFacts.

Section Generic.
Variable K : Type.
Variable keq : K -> K -> bool.
Variable kle : K -> K -> bool.
Variable eq_dec : forall a b : K, {a = b} + {a <> b}.
Hypothesis keq_eq : forall a b, keq a b = true <-> a = b.
Hypothesis kle_total : forall a b, kle a b = true \/ kle b a = true.
Variable key : Row -> K.

Lemma insert_group_ascending (g : K * (Z * positive))
    (acc : list (K * (Z * positive))) :
  ascending kle (map fst acc) ->
  ascending kle (map fst (insert_group kle g acc)).
Proof.
  unfold ascending. induction acc as [|h acc IH]; simpl; intros Hs.
  - repeat constructor.
  - destruct (kle (fst g) (fst h)) eqn:E; simpl.
    + constructor; [assumption | now constructor].
    + inversion Hs as [|? ? Hs' Hhd]; subst.
      constructor; [now apply IH |].
      assert (Hhg : kle (fst h) (fst g) = true).
      { destruct (kle_total (fst g) (fst h)); [congruence | assumption]. }
      destruct acc as [|h' acc]; simpl.
      * now constructor.
      * destruct (kle (fst g) (fst h')); simpl; constructor;
          [assumption | now inversion Hhd].
Qed.

Lemma sort_groups_ascending (acc : list (K * (Z * positive))) :
  ascending kle (map fst (sort_groups kle acc)).
Proof.
  unfold sort_groups. induction acc as [|g acc IH]; simpl.
  - constructor.
  - now apply insert_group_ascending.
Qed.

Lemma groupby_mean_keys (df : DataFrame) :
  map fst (groupby_mean keq kle key df)
  = map fst (sort_groups kle (group_sums keq key df)).
Proof.
  unfold groupby_mean. rewrite map_map. apply map_ext. now intros [k sn].
Qed.

Lemma groupby_mean_ascending (df : DataFrame) :
  ascending kle (map fst (groupby_mean keq kle key df)).
Proof. rewrite groupby_mean_keys. apply sort_groups_ascending. Qed.

Lemma rows_with_In (k : K) (df : DataFrame) (r : Row) :
  In r (rows_with eq_dec key k df) <-> In r df /\ key r = k.
Proof.
  unfold rows_with. rewrite filter_In.
  destruct (eq_dec (key r) k); split; intros [H1 H2];
    try split; try assumption; try reflexivity; try discriminate.
  contradiction.
Qed.

Lemma sumZ_within (lo hi : Z) (l : list Z) :
  (forall p, In p l -> (lo <= p <= hi)%Z) ->
  (lo * Z.of_nat (length l) <= sumZ l <= hi * Z.of_nat (length l))%Z.
Proof.
  unfold sumZ. induction l as [|p l IH]; intros Hall.
  - simpl. lia.
  - assert (Hp : (lo <= p <= hi)%Z) by (apply Hall; now left).
    assert (Hl : (lo * Z.of_nat (length l) <= fold_right Z.add 0%Z l
                  <= hi * Z.of_nat (length l))%Z)
      by (apply IH; intros q Hq; apply Hall; now right).
    cbn [fold_right length]. rewrite Nat2Z.inj_succ. lia.
Qed.

Lemma arithmetic_mean_within (lo hi : Z) (l : list Z) :
  l <> [] ->
  (forall p, In p l -> (lo <= p <= hi)%Z) ->
  (inject_Z lo <= arithmetic_mean l <= inject_Z hi)%Q.
Proof.
  intros Hne Hall. destruct (sumZ_within lo hi l Hall) as [Hlo Hhi].
  assert (Hn : (0 < Z.of_nat (length l))%Z)
    by (destruct l; [contradiction | simpl; lia]).
  assert (Hq : (0 < inject_Z (Z.of_nat (length l)))%Q).
  { change 0%Q with (inject_Z 0). now rewrite <- Zlt_Qlt. }
  unfold arithmetic_mean. split.
  - apply Qle_shift_div_l; [assumption |].
    rewrite <- inject_Z_mult, <- Zle_Qle. assumption.
  - apply Qle_shift_div_r; [assumption |].
    rewrite <- inject_Z_mult, <- Zle_Qle. assumption.
Qed.

Lemma group_means_within (lo hi : Z) (df : DataFrame) (out : list (K * Q)) :
  group_means eq_dec key df out ->
  prices_within lo hi df -> means_within lo hi out.
Proof.
  intros (_ & Hkeys & Hmean) Hall k q Hin.
  rewrite (Hmean k q Hin).
  assert (Hk : exists r, In r df /\ key r = k).
  { apply Hkeys. change k with (fst (k, q)). now apply in_map. }
  destruct Hk as [r Hr].
  apply arithmetic_mean_within.
  - intros Hnil. apply rows_with_In in Hr.
    apply (in_map Price) in Hr. rewrite Hnil in Hr. destruct Hr.
  - intros p Hp. apply in_map_iff in Hp. destruct Hp as [r' [<- Hr']].
    apply rows_with_In in Hr'. apply Hall. tauto.
Qed.

Lemma groupby_mean_within (lo hi : Z) (df : DataFrame) :
  prices_within lo hi df ->
  means_within lo hi (groupby_mean keq kle key df).
Proof.
  apply group_means_within. now apply groupby_mean_group_means.
Qed.

End Generic.

Lemma pair_leb_total (a b : string * string) :
  pair_leb a b = true \/ pair_leb b a = true.
Proof.
  destruct a as [a1 a2], b as [b1 b2]. unfold pair_leb. simpl.
  rewrite (String.compare_antisym b1 a1).
  destruct (String.compare a1 b1); simpl; try tauto.
  apply String.leb_total.
Qed.

Lemma first_occurrence_keys (col l1 l2 : list string) :
  NoDup l1 -> (forall v, In v l1 <-> In v col) ->
  first_occurrence_order col l2 -> Permutation l1 l2.
Proof.
  intros Hnd Hin (Hnd2 & Hin2 & _). apply NoDup_Permutation; try assumption.
  intros v. rewrite Hin, Hin2. tauto.
Qed.

End GroupByMore.

(** ** More about runs: the cache across reruns, the shown selections *)

Module RunMore.
Import Pandas Runtime App Spec Further PandasFacts RunFacts.

(** [load_data] at the start of a run, case by case. *)
Lemma load_fresh_cases (w : World) :
  load_data default_filepath (fresh w) =
  match cache w with
  | Some (recorded, df) =>
      (Returned df,
       mkWorld (files w) (Some (recorded, df)) (session w)
               (map StError recorded) [])
  | None =>
      match files w default_filepath with
      | Missing =>
          (Returned empty_frame,
           mkWorld (files w) (Some ([not_found], empty_frame)) (session w)
                   [StError not_found] [OpRead default_filepath])
      | Unreadable =>
          (Raised ReadError,
           mkWorld (files w) None (session w) [] [OpRead default_filepath])
      | Workbook df =>
          (Returned df,
           mkWorld (files w) (Some ([], df)) (session w) []
                   [OpRead default_filepath])
      end
  end.
Proof.
  rewrite load_data_cases. destruct w as [fs c ses scr sto].
  unfold fresh, with_storage, with_screen.
  cbn [files cache session screen storage app].
  destruct c as [[recorded df]|]; [reflexivity |].
  destruct (fs default_filepath); reflexivity.
Qed.

Section Run.
Variable month_of : string -> string.
Variable hour_of : string -> Z.

(** Everything about a run from what [load_data] does at its start. *)
Lemma run_from_load (w : World) :
  fst (run month_of hour_of w) = outcome_of_main (fst (loaded w)) /\
  page month_of hour_of w =
    header ++ snd (loaded w)
           ++ rest_of_page month_of hour_of (fst (loaded w)) (session w) /\
  cache (snd (run month_of hour_of w))
    = cache (snd (load_data default_filepath (fresh w))) /\
  storage (snd (run month_of hour_of w))
    = storage (snd (load_data default_filepath (fresh w))).
Proof.
  unfold page. pose proof (run_spec month_of hour_of w) as H.
  cbv zeta in H. rewrite H. repeat split; reflexivity.
Qed.

(** A run that finds an entry in the cache shows what was recorded, returns
    the stored frame, reads nothing and leaves the entry alone. *)
Lemma run_on_cached (w : World) (recorded : list string) (df : DataFrame) :
  cache w = Some (recorded, df) ->
  loaded w = (Returned df, map StError recorded) /\
  cache (snd (run month_of hour_of w)) = cache w /\
  storage (snd (run month_of hour_of w)) = [].
Proof.
  intros Hc. destruct (run_from_load w) as (_ & _ & -> & ->).
  unfold loaded. rewrite load_fresh_cases, Hc. repeat split; reflexivity.
Qed.

(** After a run in which [load_data] returned, the cache holds the frame it
    returned and the alerts it showed. *)
Lemma returned_load_is_cached (w : World) (df : DataFrame) :
  fst (loaded w) = Returned df ->
  exists recorded,
    cache (snd (run month_of hour_of w)) = Some (recorded, df) /\
    snd (loaded w) = map StError recorded.
Proof.
  destruct (run_from_load w) as (_ & _ & -> & _).
  unfold loaded. rewrite load_fresh_cases.
  destruct (cache w) as [[recorded df0]|]; cbn [fst snd cache screen].
  - intros [= ->]. now exists recorded.
  - destruct (files w default_filepath); cbn [fst snd cache screen].
    + intros [= <-]. now exists [not_found].
    + discriminate.
    + intros [= ->]. now exists [].
Qed.

Lemma selections_shown_app (p q : list Element) :
  selections_shown (p ++ q) = selections_shown p ++ selections_shown q.
Proof. apply flat_map_app. Qed.

Lemma selections_shown_alerts (alerts : list string) :
  selections_shown (map StError alerts) = [].
Proof. induction alerts as [|a alerts IH]; [reflexivity | exact IH]. Qed.

Lemma picked_is_an_option (ses : string -> nat) (label first : string)
    (others : list string) :
  In (picked ses label (first :: others)) (first :: others).
Proof.
  unfold picked.
  destruct (Nat.lt_ge_cases (ses label) (length (first :: others)))
    as [Hlt | Hge].
  - now apply nth_In.
  - rewrite nth_overflow by assumption. now left.
Qed.

Lemma filter_filter {A} (p q : A -> bool) (l : list A) :
  filter p (filter q l) = filter (fun a => q a && p a) l.
Proof.
  induction l as [|a l IH]; simpl; [reflexivity |].
  destruct (q a); simpl; [destruct (p a) |]; now rewrite IH.
Qed.

Lemma no_selection_keeps_all (df : DataFrame) :
  filtered_data df "All" "All" "All" = df.
Proof.
  rewrite filtered_data_filter.
  induction df as [|r df IH]; simpl; [reflexivity | now rewrite IH].
Qed.

End Run.
End RunMore.

(** ** Further properties of the script *)

Module Extras.
Import Pandas Runtime App Spec Further.
Import PandasFacts GroupByFacts GroupByMore RunFacts RunMore.

(** X2: the rows of the four grouped tables come in ascending key order
    (pairs lexicographically), whatever the order of the rows of the frame. *)
Theorem X2_grouped_tables_are_ordered (month_of : string -> string)
    (df filtered : DataFrame) :
  ascending pair_leb (map fst (monthly_price month_of df)) /\
  ascending String.leb (map fst (avg_price_stops filtered)) /\
  ascending String.leb (map fst (price_by_source df)) /\
  ascending pair_leb (map fst (price_by_airline_stops df)).
Proof.
  repeat split.
  - apply groupby_mean_ascending, pair_leb_total.
  - apply groupby_mean_ascending, String.leb_total.
  - apply groupby_mean_ascending, String.leb_total.
  - apply groupby_mean_ascending, pair_leb_total.
Qed.

(** X4: if every price of the frame lies between [lo] and [hi], so does
    every mean of the four grouped tables, the one computed on the filtered
    table included. *)
Theorem X4_means_stay_in_the_price_range (month_of : string -> string)
    (lo hi : Z) (df : DataFrame) (airline source destination : string) :
  prices_within lo hi df ->
  means_within lo hi (monthly_price month_of df) /\
  means_within lo hi
    (avg_price_stops (filtered_data df airline source destination)) /\
  means_within lo hi (price_by_source df) /\
  means_within lo hi (price_by_airline_stops df).
Proof.
  intros Hall.
  assert (Hpair : forall a b, pair_eqb a b = true <-> a = b).
  { intros [a1 a2] [b1 b2]. unfold pair_eqb. simpl.
    rewrite andb_true_iff, !String.eqb_eq. split.
    - now intros [-> ->].
    - intros H. now inversion H. }
  split; [| split; [| split]].
  - now apply (groupby_mean_within _ _ _ pair_dec Hpair).
  - apply (groupby_mean_within _ _ _ string_dec String.eqb_eq).
    intros r Hr. apply Hall. rewrite filtered_data_filter in Hr.
    apply filter_In in Hr. tauto.
  - now apply (groupby_mean_within _ _ _ string_dec String.eqb_eq).
  - now apply (groupby_mean_within _ _ _ pair_dec Hpair).
Qed.

(** X8: filtering is idempotent, and filtering by the three selectors at
    once is filtering by one selector after the other. *)
Theorem X8_filter_composes (df : DataFrame)
    (airline source destination : string) :
  filtered_data (filtered_data df airline source destination)
                airline source destination
    = filtered_data df airline source destination /\
  filtered_data
    (filtered_data (filtered_data df airline "All" "All") "All" source "All")
    "All" "All" destination
    = filtered_data df airline source destination.
Proof.
  rewrite !filtered_data_filter, !filter_filter. split.
  - apply filter_ext. intros r. now destruct (keepsb airline source destination r).
  - apply filter_ext. intros r. unfold keepsb.
    rewrite !String.eqb_refl. cbn [orb andb].
    repeat match goal with
           | |- context [orb ?a ?b] => destruct (orb a b)
           end; reflexivity.
Qed.

Section Runs.
Variable month_of : string -> string.
Variable hour_of : string -> Z.

(** X5: on the page of a non-empty run each select box shows one of its own
    options, and the second table is the first one restricted to the rows
    that pass the three values shown. *)
Theorem X5_filtered_table_follows_the_boxes (w : World) (df : DataFrame) :
  fst (loaded w) = Returned df -> df <> [] ->
  exists a s d,
    selections_shown (page month_of hour_of w) = [a; s; d] /\
    In a ("All" :: unique (map Airline df)) /\
    In s ("All" :: unique (map Source df)) /\
    In d ("All" :: unique (map Destination df)) /\
    tables (page month_of hour_of w) = [df; filter (keepsb a s d) df].
Proof.
  intros Hload Hne.
  destruct (read_rest_of_page month_of hour_of w) as (_ & Ht & _ & _).
  fold (page month_of hour_of w) in Ht. rewrite Ht.
  destruct (run_from_load month_of hour_of w) as (_ & -> & _ & _).
  destruct (loaded_alerts w) as [alerts ->].
  rewrite Hload, rest_nonempty by assumption.
  rewrite !selections_shown_app, selections_shown_alerts.
  exists (picked (session w) "Select Airline"
                 ("All" :: unique (map Airline df))),
         (picked (session w) "Select Source City"
                 ("All" :: unique (map Source df))),
         (picked (session w) "Select Destination City"
                 ("All" :: unique (map Destination df))).
  split; [reflexivity |].
  repeat (split; [apply picked_is_an_option |]).
  rewrite <- filtered_data_filter. reflexivity.
Qed.

(** X6: while nothing is picked (the first option in each box), the filtered
    table is the whole frame and the three figures drawn from it are those
    of the whole frame. *)
Theorem X6_nothing_picked_shows_everything (w : World) (df : DataFrame) :
  fst (loaded w) = Returned df -> df <> [] ->
  session w "Select Airline" = 0 ->
  session w "Select Source City" = 0 ->
  session w "Select Destination City" = 0 ->
  tables (page month_of hour_of w) = [df; df] /\
  filtered_figures (page month_of hour_of w) =
    [fig_avg_price df; fig_source_dist df; fig_duration_price df].
Proof.
  intros Hload Hne Ha Hs Hd. unfold filtered_figures.
  destruct (read_rest_of_page month_of hour_of w) as (Hc & Ht & _ & _).
  fold (page month_of hour_of w) in Hc, Ht. rewrite Hc, Ht.
  rewrite Hload, rest_nonempty, charts_dashboard by assumption.
  unfold dashboard, picked. rewrite Ha, Hs, Hd. cbn [nth].
  cbv zeta. rewrite no_selection_keeps_all. split; reflexivity.
Qed.

(** X9: when nothing is cached and the dataset file is there but cannot be
    read, the exception is not caught: the run raises after the title and the
    introduction, nothing is cached, and the one disk operation is the read. *)
Theorem X9_unreadable_file_raises (w : World) :
  cache w = None -> files w default_filepath = Unreadable ->
  fst (run month_of hour_of w) = Raised ReadError /\
  page month_of hour_of w = header /\
  cache (snd (run month_of hour_of w)) = None /\
  storage (snd (run month_of hour_of w)) = [OpRead default_filepath].
Proof.
  intros Hc Hf.
  destruct (run_from_load month_of hour_of w) as (-> & -> & -> & ->).
  unfold loaded. rewrite load_fresh_cases, Hc, Hf.
  repeat split; reflexivity.
Qed.

(** X10: once a run has returned, a rerun with the same selections renders
    the same page without any disk operation, whatever has happened to the
    disk meanwhile, and leaves the cache entry as it is. *)
Theorem X10_rerun_is_served_from_the_cache (w1 w2 : World) :
  fst (run month_of hour_of w1) = Returned tt ->
  cache w2 = cache (snd (run month_of hour_of w1)) ->
  same_selections (session w1) (session w2) ->
  page month_of hour_of w2 = page month_of hour_of w1 /\
  storage (snd (run month_of hour_of w2)) = [] /\
  cache (snd (run month_of hour_of w2)) = cache w2.
Proof.
  intros Hret Hc Hsel.
  destruct (run_from_load month_of hour_of w1) as (Ho & Hp1 & _ & _).
  rewrite Ho in Hret.
  destruct (fst (loaded w1)) as [df|e] eqn:Hl; [| discriminate].
  destruct (returned_load_is_cached month_of hour_of w1 df Hl)
    as [recorded [Hc1 Ha1]].
  rewrite Hc1 in Hc.
  destruct (run_on_cached month_of hour_of w2 recorded df Hc)
    as (Hl2 & Hc2 & Hs2).
  split; [| split; assumption].
  destruct (run_from_load month_of hour_of w2) as (_ & -> & _ & _).
  rewrite Hp1, Hl2, Ha1. cbn [fst snd]. do 2 f_equal.
  symmetry. now apply Claims.rest_same_selections.
Qed.

(** X11: the miss is cached too: after a first run that found neither a
    cached frame nor the dataset file, every rerun shows the same alert and
    warning and no dashboard, without looking at the disk, even when the
    workbook is there by then. *)
Theorem X11_a_miss_is_remembered (w1 w2 : World) :
  cache w1 = None -> files w1 default_filepath = Missing ->
  cache w2 = cache (snd (run month_of hour_of w1)) ->
  fst (run month_of hour_of w2) = Returned tt /\
  page month_of hour_of w2 = header ++ [StError not_found] ++ no_data /\
  storage (snd (run month_of hour_of w2)) = [].
Proof.
  intros Hc Hf Hc2.
  destruct (run_from_load month_of hour_of w1) as (_ & _ & Hc1 & _).
  rewrite Hc1, load_fresh_cases, Hc, Hf in Hc2. cbn [snd cache] in Hc2.
  destruct (run_on_cached month_of hour_of w2 _ _ Hc2) as (Hl2 & _ & Hs2).
  destruct (run_from_load month_of hour_of w2) as (-> & -> & _ & _).
  rewrite Hl2. repeat split. assumption.
Qed.

(** X12: a workbook without rows is not a missing file: on a cold start the
    page is the header and the warning, without the alert of [load_data],
    and the empty frame is cached. *)
Theorem X12_blank_workbook_warns_without_alert (w : World) :
  cache w = None -> files w default_filepath = Workbook [] ->
  fst (run month_of hour_of w) = Returned tt /\
  page month_of hour_of w = header ++ no_data /\
  cache (snd (run month_of hour_of w)) = Some ([], []).
Proof.
  intros Hc Hf.
  destruct (run_from_load month_of hour_of w) as (-> & -> & -> & _).
  unfold loaded. rewrite load_fresh_cases, Hc, Hf.
  repeat split; reflexivity.
Qed.

End Runs.

(** *** The properties on the sample workbook *)

Lemma X4_means_stay_in_the_price_range_witness :
  prices_within 3897 7662 Sample.flights /\
  means_within 3897 7662 (price_by_source Sample.flights).
Proof.
  assert (H : prices_within 3897 7662 Sample.flights).
  { intros r [<- | [<- | [<- | []]]]; simpl; lia. }
  split; [exact H |].
  exact (proj1 (proj2 (proj2
           (X4_means_stay_in_the_price_range
              Sample.month_of 3897 7662 Sample.flights
              "IndiGo" "All" "All" H)))).
Defined.

(** The second airline picked: the filtered table holds its two flights. *)
Lemma X5_filtered_table_follows_the_boxes_witness :
  fst (loaded Sample.cold_indigo) = Returned Sample.flights /\
  Sample.flights <> [] /\
  exists a s d,
    selections_shown (page Sample.month_of Sample.hour_of Sample.cold_indigo)
      = [a; s; d] /\
    In a ("All" :: unique (map Airline Sample.flights)) /\
    In s ("All" :: unique (map Source Sample.flights)) /\
    In d ("All" :: unique (map Destination Sample.flights)) /\
    tables (page Sample.month_of Sample.hour_of Sample.cold_indigo)
      = [Sample.flights; filter (keepsb a s d) Sample.flights].
Proof.
  split; [reflexivity |]. split; [discriminate |].
  apply (X5_filtered_table_follows_the_boxes
           Sample.month_of Sample.hour_of Sample.cold_indigo Sample.flights);
    [reflexivity | discriminate].
Defined.

Lemma X6_nothing_picked_shows_everything_witness :
  fst (loaded Sample.cold) = Returned Sample.flights /\
  Sample.flights <> [] /\
  session Sample.cold "Select Airline" = 0 /\
  session Sample.cold "Select Source City" = 0 /\
  session Sample.cold "Select Destination City" = 0 /\
  tables (page Sample.month_of Sample.hour_of Sample.cold)
    = [Sample.flights; Sample.flights].
Proof.
  split; [reflexivity |]. split; [discriminate |].
  split; [reflexivity |]. split; [reflexivity |]. split; [reflexivity |].
  refine (proj1 (X6_nothing_picked_shows_everything
                   Sample.month_of Sample.hour_of Sample.cold Sample.flights
                   eq_refl _ eq_refl eq_refl eq_refl)).
  discriminate.
Defined.

Lemma X9_unreadable_file_raises_witness :
  cache cold_unreadable = None /\
  files cold_unreadable default_filepath = Unreadable /\
  fst (run Sample.month_of Sample.hour_of cold_unreadable) = Raised ReadError.
Proof.
  split; [reflexivity |]. split; [reflexivity |].
  exact (proj1 (X9_unreadable_file_raises
                  Sample.month_of Sample.hour_of cold_unreadable
                  eq_refl eq_refl)).
Defined.

(** A cold start with the workbook on disk, then a rerun after the workbook
    was removed. *)
Lemma X10_rerun_is_served_from_the_cache_witness :
  fst (run Sample.month_of Sample.hour_of Sample.cold) = Returned tt /\
  cache Sample.removed_after_load
    = cache (snd (run Sample.month_of Sample.hour_of Sample.cold)) /\
  same_selections (session Sample.cold) (session Sample.removed_after_load) /\
  files Sample.removed_after_load default_filepath = Missing /\
  page Sample.month_of Sample.hour_of Sample.removed_after_load
    = page Sample.month_of Sample.hour_of Sample.cold.
Proof.
  assert (Hsel : same_selections (session Sample.cold)
                                 (session Sample.removed_after_load))
    by (repeat split).
  assert (Hret : fst (run Sample.month_of Sample.hour_of Sample.cold)
                 = Returned tt) by (vm_compute; reflexivity).
  assert (Hc : cache Sample.removed_after_load
               = cache (snd (run Sample.month_of Sample.hour_of Sample.cold)))
    by (vm_compute; reflexivity).
  split; [exact Hret |]. split; [exact Hc |]. split; [exact Hsel |].
  split; [reflexivity |].
  exact (proj1 (X10_rerun_is_served_from_the_cache
                  Sample.month_of Sample.hour_of
                  Sample.cold Sample.removed_after_load
                  Hret Hc Hsel)).
Defined.

(** A cold start without the workbook, then a rerun with the workbook in
    place. *)
Lemma X11_a_miss_is_remembered_witness :
  cache Sample.cold_missing = None /\
  files Sample.cold_missing default_filepath = Missing /\
  files restored_after_miss default_filepath = Workbook Sample.flights /\
  page Sample.month_of Sample.hour_of restored_after_miss
    = header ++ [StError not_found] ++ no_data.
Proof.
  split; [reflexivity |]. split; [reflexivity |]. split; [reflexivity |].
  exact (proj1 (proj2 (X11_a_miss_is_remembered
                         Sample.month_of Sample.hour_of
                         Sample.cold_missing restored_after_miss
                         eq_refl eq_refl eq_refl))).
Defined.

Lemma X12_blank_workbook_warns_without_alert_witness :
  cache cold_blank = None /\
  files cold_blank default_filepath = Workbook [] /\
  page Sample.month_of Sample.hour_of cold_blank = header ++ no_data.
Proof.
  split; [reflexivity |]. split; [reflexivity |].
  exact (proj1 (proj2 (X12_blank_workbook_warns_without_alert
                         Sample.month_of Sample.hour_of cold_blank
                         eq_refl eq_refl))).
Defined.

End Extras.

(** ** Facts about frames with blank cells *)

Module BlankFacts.
Import Spec Blank.

Section Generic.
Variable K : Type.
Variable keq : K -> K -> bool.
Variable kle : K -> K -> bool.
Variable eq_dec : forall a b : K, {a = b} + {a <> b}.
Variable rnd : Q -> Q.
Hypothesis keq_eq : forall a b, keq a b = true <-> a = b.
Variable key : NaRow -> option K.

Lemma keq_refl_na (k : K) : keq k k = true.
Proof. now apply keq_eq. Qed.

Lemma accumulate_na_keys_old (k : K) (p : option Z)
    (acc : list (K * Tally)) :
  In k (map fst acc) -> map fst (accumulate keq k p acc) = map fst acc.
Proof.
  induction acc as [|[k' t] acc IH]; simpl; [intros [] |].
  intros Hin. destruct (keq k k') eqn:E; simpl; [reflexivity |].
  f_equal. apply IH. destruct Hin as [Hk | Hin]; [| assumption].
  subst. rewrite keq_refl_na in E. discriminate.
Qed.

Lemma accumulate_na_keys_new (k : K) (p : option Z)
    (acc : list (K * Tally)) :
  ~ In k (map fst acc) ->
  accumulate keq k p acc = acc ++ [(k, tally p (0%Z, 0%N))].
Proof.
  induction acc as [|[k' t] acc IH]; simpl; [reflexivity |].
  intros Hnot. destruct (keq k k') eqn:E.
  - apply keq_eq in E. subst. tauto.
  - f_equal. apply IH. tauto.
Qed.

Lemma accumulate_na_In (k : K) (p : option Z) (acc : list (K * Tally))
    (k' : K) (t' : Tally) :
  NoDup (map fst acc) ->
  In (k', t') (accumulate keq k p acc) ->
  (k' <> k /\ In (k', t') acc) \/
  (k' = k /\ exists t, In (k, t) acc /\ t' = tally p t) \/
  (k' = k /\ ~ In k (map fst acc) /\ t' = tally p (0%Z, 0%N)).
Proof.
  induction acc as [|[k0 t0] acc IH]; simpl; intros Hnd Hin.
  - destruct Hin as [Hin | []]. inversion Hin; subst. right; right. tauto.
  - inversion Hnd as [|? ? Hnot Hnd']; subst.
    destruct (keq k k0) eqn:E.
    + apply keq_eq in E. subst k0. destruct Hin as [Hin | Hin].
      * inversion Hin; subst. right; left. split; [reflexivity |].
        exists t0. tauto.
      * left. split; [| now right].
        intros ->. apply Hnot. change k with (fst (k, t')). now apply in_map.
    + assert (Hne : k <> k0).
      { intros ->. rewrite keq_refl_na in E. discriminate. }
      destruct Hin as [Hin | Hin].
      * inversion Hin; subst. left. split; [congruence | now left].
      * destruct (IH Hnd' Hin) as [[H1 H2] | [[H1 [t [H2 H3]]] | [H1 [H2 H3]]]].
        -- left. tauto.
        -- right; left. split; [assumption |]. exists t. tauto.
        -- right; right. split; [assumption |]. split; [| assumption].
           intros [Hk | Hk]; [congruence | contradiction].
Qed.

Lemma prices_with_snoc (k : K) (rows : NaFrame) (r : NaRow) :
  prices_with eq_dec key k (rows ++ [r]) =
  prices_with eq_dec key k rows ++
  match key r, Price r with
  | Some k', Some p => if eq_dec k' k then [p] else []
  | _, _ => []
  end.
Proof.
  unfold prices_with. rewrite flat_map_app. simpl. now rewrite app_nil_r.
Qed.

Lemma prices_with_none (k : K) (rows : NaFrame) :
  ~ (exists r, In r rows /\ key r = Some k) ->
  prices_with eq_dec key k rows = [].
Proof.
  intros Hnone. unfold prices_with.
  induction rows as [|r rows IH]; simpl; [reflexivity |].
  rewrite IH.
  - destruct (key r) as [k'|] eqn:Ek; [| reflexivity].
    destruct (Price r); [| reflexivity].
    destruct (eq_dec k' k) as [-> | _]; [| reflexivity].
    exfalso. apply Hnone. exists r. split; [now left | assumption].
  - intros [r' [Hin Hk]]. apply Hnone. exists r'. split; [now right | assumption].
Qed.

Lemma tallies_na_nil : tallies eq_dec key [] [].
Proof.
  unfold tallies. simpl. split; [constructor |]. split.
  - intros k. split; [intros [] | intros [r [[] _]]].
  - intros k s n [].
Qed.

Lemma tally_sums (p : option Z) (s : Z) (n : N) (l : list Z) :
  s = sumZ l -> N.to_nat n = length l ->
  fst (tally p (s, n)) = sumZ (l ++ match p with Some z => [z] | None => [] end)
  /\ N.to_nat (snd (tally p (s, n)))
     = length (l ++ match p with Some z => [z] | None => [] end).
Proof.
  intros -> Hn. destruct p as [z|]; simpl.
  - rewrite GroupByFacts.sumZ_app, length_app, N2Nat.inj_succ. simpl.
    unfold sumZ. simpl. split; lia.
  - now rewrite app_nil_r.
Qed.

Lemma tallies_na_blank (rows : NaFrame) (acc : list (K * Tally)) (r : NaRow) :
  key r = None ->
  tallies eq_dec key rows acc -> tallies eq_dec key (rows ++ [r]) acc.
Proof.
  intros Hr (Hnd & Hkeys & Hsums). split; [assumption |]. split.
  - intros k. rewrite Hkeys. split; intros [r' [Hin Hk]].
    + exists r'. split; [apply in_or_app; now left | assumption].
    + apply in_app_or in Hin. destruct Hin as [Hin | [<- | []]].
      * now exists r'.
      * congruence.
  - intros k s n Hin. rewrite prices_with_snoc, Hr, app_nil_r.
    now apply Hsums.
Qed.

Lemma tallies_na_keyed (rows : NaFrame) (acc : list (K * Tally)) (r : NaRow)
    (k0 : K) :
  key r = Some k0 ->
  tallies eq_dec key rows acc ->
  tallies eq_dec key (rows ++ [r]) (accumulate keq k0 (Price r) acc).
Proof.
  intros Hr (Hnd & Hkeys & Hsums).
  assert (Hk : forall k, In k (map fst (accumulate keq k0 (Price r) acc))
                         <-> In k (map fst acc) \/ k = k0).
  { intros k. destruct (in_dec eq_dec k0 (map fst acc)) as [Hin | Hnot].
    - rewrite accumulate_na_keys_old by assumption.
      split; [tauto | intros [H | ->]; assumption].
    - rewrite accumulate_na_keys_new by assumption.
      rewrite map_app, in_app_iff. simpl. split; intros [H | H]; try tauto.
      + destruct H as [H | []]. now right.
      + right. now left. }
  split; [| split].
  - destruct (in_dec eq_dec k0 (map fst acc)) as [Hin | Hnot].
    + now rewrite accumulate_na_keys_old.
    + rewrite accumulate_na_keys_new by assumption. rewrite map_app. simpl.
      apply (Permutation_NoDup (l := k0 :: map fst acc)).
      * apply Permutation_cons_append.
      * now constructor.
  - intros k. rewrite Hk, Hkeys. split.
    + intros [[r' [Hin Hr']] | ->].
      * exists r'. split; [apply in_or_app; now left | assumption].
      * exists r. split; [apply in_or_app; right; now left | assumption].
    + intros [r' [Hin Hr']]. apply in_app_or in Hin.
      destruct Hin as [Hin | [<- | []]]; [left; eauto | right; congruence].
  - intros k s n Hin. rewrite prices_with_snoc, Hr.
    apply accumulate_na_In in Hin; [| assumption].
    destruct Hin as [[Hne Hin] | [[-> [[s0 n0] [Hin Ht]]] | [-> [Hnot Ht]]]].
    + destruct (Hsums _ _ _ Hin) as [Hs Hn].
      destruct (Price r); [| now rewrite app_nil_r].
      destruct (eq_dec k0 k) as [E | _]; [symmetry in E; contradiction |].
      now rewrite app_nil_r.
    + destruct (Hsums _ _ _ Hin) as [Hs Hn].
      destruct (tally_sums (Price r) s0 n0 _ Hs Hn) as [H1 H2].
      rewrite <- Ht in H1, H2. simpl in H1, H2.
      destruct (Price r); [| tauto].
      destruct (eq_dec k0 k0) as [_ | E]; [tauto | contradiction].
    + assert (Hempty : prices_with eq_dec key k0 rows = []).
      { apply prices_with_none. intros Hex. apply Hnot. now apply Hkeys. }
      rewrite Hempty.
      destruct (tally_sums (Price r) 0%Z 0%N [] eq_refl eq_refl) as [H1 H2].
      rewrite <- Ht in H1, H2. simpl in H1, H2.
      destruct (Price r); [| tauto].
      destruct (eq_dec k0 k0) as [_ | E]; [tauto | contradiction].
Qed.

Lemma fold_accumulate_na_tallies (df rows : NaFrame)
    (acc : list (K * Tally)) :
  tallies eq_dec key rows acc ->
  tallies eq_dec key (rows ++ df)
    (fold_left (fun acc r =>
                  match key r with
                  | Some k => accumulate keq k (Price r) acc
                  | None => acc
                  end) df acc).
Proof.
  revert rows acc. induction df as [|r df IH]; intros rows acc Ht; simpl.
  - now rewrite app_nil_r.
  - replace (rows ++ r :: df) with ((rows ++ [r]) ++ df)
      by now rewrite <- app_assoc.
    apply IH. destruct (key r) as [k0|] eqn:Ek.
    + now apply tallies_na_keyed.
    + now apply tallies_na_blank.
Qed.

Lemma group_sums_na_tallies (df : NaFrame) :
  tallies eq_dec key df (group_sums keq key df).
Proof. apply (fold_accumulate_na_tallies df [] []). apply tallies_na_nil. Qed.

Lemma insert_group_na_perm (g : K * Tally) (acc : list (K * Tally)) :
  Permutation (insert_group kle g acc) (g :: acc).
Proof.
  induction acc as [|h acc IH]; simpl; [reflexivity |].
  destruct (kle (fst g) (fst h)); [reflexivity |].
  rewrite IH. apply perm_swap.
Qed.

Lemma sort_groups_na_perm (acc : list (K * Tally)) :
  Permutation (sort_groups kle acc) acc.
Proof.
  unfold sort_groups. induction acc as [|g acc IH]; simpl; [reflexivity |].
  rewrite insert_group_na_perm. now constructor.
Qed.

(** The grouped mean of a frame with blank cells: one row per distinct
    non-blank key, with the rounded mean of the non-blank prices of its
    rows. *)
Lemma groupby_mean_na_group_means (df : NaFrame) :
  group_means eq_dec rnd key df (groupby_mean keq kle rnd key df).
Proof.
  destruct (group_sums_na_tallies df) as (Hnd & Hkeys & Hsums).
  pose proof (sort_groups_na_perm (group_sums keq key df)) as Hperm.
  assert (Hfst : map fst (groupby_mean keq kle rnd key df)
                 = map fst (sort_groups kle (group_sums keq key df))).
  { unfold groupby_mean. rewrite map_map. apply map_ext. now intros [k t]. }
  unfold group_means. rewrite Hfst. split; [| split].
  - apply (Permutation_NoDup (l := map fst (group_sums keq key df)));
      [| assumption].
    apply Permutation_map. now symmetry.
  - intros k. rewrite <- Hkeys. split; apply Permutation_in;
      apply Permutation_map; [assumption | now symmetry].
  - intros k v Hin. unfold groupby_mean in Hin. apply in_map_iff in Hin.
    destruct Hin as [[k' [s n]] [Heq Hin]]. unfold mean_of in Heq.
    simpl in Heq. inversion Heq; subst. clear Heq.
    apply (Permutation_in _ Hperm) in Hin.
    destruct (Hsums _ _ _ Hin) as [Hs Hn].
    destruct (prices_with eq_dec key k df) as [|p ps] eqn:Ep.
    + destruct n; [reflexivity | simpl in Hn; lia].
    + destruct n as [|c]; [discriminate Hn |].
      exists (Qred (Qmake s c)). split; [| reflexivity].
      apply GroupByFacts.mean_of_arithmetic_mean; assumption.
Qed.

End Generic.

(** *** The filter and [unique] with blank cells *)

Lemma boolean_index_na_map (p : NaRow -> bool) (df : NaFrame) :
  boolean_index df (map p df) = filter p df.
Proof.
  induction df as [|r df IH]; simpl; [reflexivity |].
  destruct (p r); now rewrite IH.
Qed.

Lemma filtered_data_na_filter (df : NaFrame) (a s d : option string) :
  filtered_data df a s d = filter (keepsb a s d) df.
Proof.
  unfold filtered_data, filter_mask, Pandas.mask_or_scalar, series_eq.
  rewrite !map_map.
  rewrite (PandasFacts.mask_and_map
             (fun r => cell_eq (Airline r) a || is_all a)
             (fun r => cell_eq (Source r) s || is_all s)).
  rewrite (PandasFacts.mask_and_map
             (fun r => (cell_eq (Airline r) a || is_all a)
                       && (cell_eq (Source r) s || is_all s))
             (fun r => cell_eq (Destination r) d || is_all d)).
  apply boolean_index_na_map.
Qed.

Lemma cell_eq_true (c v : option string) :
  cell_eq c v = true <-> exists x, c = Some x /\ v = Some x.
Proof.
  destruct c as [a|], v as [b|]; simpl; split;
    try discriminate; try (intros [x [H1 H2]]; discriminate).
  - intros H. apply String.eqb_eq in H. subst. now exists b.
  - intros [x [[= ->] [= ->]]]. apply String.eqb_refl.
Qed.

Lemma cell_same_eq (a b : option string) : cell_same a b = true <-> a = b.
Proof.
  destruct a as [x|], b as [y|]; simpl; split;
    try discriminate; try reflexivity.
  - intros H. apply String.eqb_eq in H. now subst.
  - intros [= ->]. apply String.eqb_refl.
Qed.

Lemma seen_na_true_iff (v : option string) (table : list (option string)) :
  seen v table = true <-> In v table.
Proof.
  unfold seen. rewrite existsb_exists. split.
  - intros [u [Hin Heq]]. apply cell_same_eq in Heq. now subst.
  - intros Hin. exists v. split; [assumption | now apply cell_same_eq].
Qed.

Lemma unique_from_na_In (col table : list (option string))
    (v : option string) :
  In v (unique_from table col) <-> In v col /\ ~ In v table.
Proof.
  revert table. induction col as [|c col IH]; intros table; simpl.
  - tauto.
  - destruct (seen c table) eqn:Hs.
    + apply seen_na_true_iff in Hs. rewrite IH. split.
      * tauto.
      * intros [[Hc | Hin] Hnot]; [subst; contradiction | tauto].
    + assert (Hn : ~ In c table).
      { intros Hin. apply seen_na_true_iff in Hin. congruence. }
      simpl. rewrite IH. simpl. split.
      * intros [Hc | [Hin Hnot]]; [subst; tauto | tauto].
      * intros [[Hc | Hin] Hnot]; [now left |].
        destruct (cell_same c v) eqn:E.
        -- apply cell_same_eq in E. now left.
        -- right. split; [assumption |].
           intros [H | H]; [| contradiction].
           subst. assert (cell_same v v = true) by now apply cell_same_eq.
           congruence.
Qed.

Lemma unique_from_na_NoDup (col table : list (option string)) :
  NoDup (unique_from table col).
Proof.
  revert table. induction col as [|c col IH]; intros table; simpl.
  - constructor.
  - destruct (seen c table); [apply IH |].
    constructor; [| apply IH].
    rewrite unique_from_na_In. simpl. tauto.
Qed.

Lemma unique_na_In (col : list (option string)) (v : option string) :
  In v (unique col) <-> In v col.
Proof. unfold unique. rewrite unique_from_na_In. simpl. tauto. Qed.

(** *** Frames without blank cell: the two models agree *)

Lemma filter_map_commute {A B} (f : A -> B) (p : B -> bool) (l : list A) :
  filter p (map f l) = map f (filter (fun a => p (f a)) l).
Proof.
  induction l as [|a l IH]; simpl; [reflexivity |].
  destruct (p (f a)); simpl; now rewrite IH.
Qed.

Lemma filtered_data_of_frame (df : Pandas.DataFrame) (a s d : string) :
  filtered_data (of_frame df) (Some a) (Some s) (Some d)
  = of_frame (App.filtered_data df a s d).
Proof.
  rewrite filtered_data_na_filter, PandasFacts.filtered_data_filter.
  unfold of_frame. rewrite filter_map_commute. f_equal.
  apply filter_ext. intros r. unfold keepsb, Spec.keepsb, is_all. simpl.
  now rewrite (orb_comm (String.eqb (Pandas.Airline r) a)),
              (orb_comm (String.eqb (Pandas.Source r) s)),
              (orb_comm (String.eqb (Pandas.Destination r) d)).
Qed.

Section Agreement.
Variable K : Type.
Variable keq : K -> K -> bool.
Variable kle : K -> K -> bool.
Variable rnd : Q -> Q.
Variable key : Pandas.Row -> K.
Variable na_key : NaRow -> option K.
Hypothesis na_key_of_row : forall r, na_key (of_row r) = Some (key r).

Lemma accumulate_counted (k : K) (p : Z) (acc : list (K * (Z * positive))) :
  accumulate keq k (Some p) (map counted acc)
  = map counted (Pandas.accumulate keq k p acc).
Proof.
  induction acc as [|[k' [s n]] acc IH]; simpl; [reflexivity |].
  destruct (keq k k'); simpl; [reflexivity | now rewrite IH].
Qed.

Lemma group_sums_counted (df : Pandas.DataFrame) :
  group_sums keq na_key (of_frame df)
  = map counted (Pandas.group_sums keq key df).
Proof.
  unfold group_sums, Pandas.group_sums.
  change (@nil (K * Tally)) with (map (@counted K) []).
  generalize (@nil (K * (Z * positive))).
  induction df as [|r df IH]; intros acc; simpl; [reflexivity |].
  rewrite na_key_of_row. simpl. rewrite accumulate_counted. apply IH.
Qed.

Lemma insert_group_counted (g : K * (Z * positive))
    (acc : list (K * (Z * positive))) :
  insert_group kle (counted g) (map counted acc)
  = map counted (Pandas.insert_group kle g acc).
Proof.
  induction acc as [|h acc IH]; simpl; [reflexivity |].
  destruct (kle (fst g) (fst h)); simpl; [reflexivity | now rewrite IH].
Qed.

Lemma sort_groups_counted (acc : list (K * (Z * positive))) :
  sort_groups kle (map counted acc)
  = map counted (Pandas.sort_groups kle acc).
Proof.
  unfold sort_groups, Pandas.sort_groups.
  induction acc as [|g acc IH]; simpl; [reflexivity |].
  rewrite IH. apply insert_group_counted.
Qed.

(** On a frame without blank cell the grouped mean is the exact grouped
    mean of [Pandas], rounded. *)
Lemma groupby_mean_of_frame (df : Pandas.DataFrame) :
  groupby_mean keq kle rnd na_key (of_frame df)
  = map (fun kq => (fst kq, Some (rnd (snd kq))))
        (Pandas.groupby_mean keq kle key df).
Proof.
  unfold groupby_mean, Pandas.groupby_mean.
  rewrite group_sums_counted, sort_groups_counted, !map_map.
  apply map_ext. now intros [k [s n]].
Qed.

End Agreement.

End BlankFacts.

(** ** The grouped means, the bars and the options on frames with blank
    cells *)

Module OnBlanks.
Import Spec Blank BlankFacts.

(** C2, amended: whatever the loaded frame, blank cells included, each of the
    three grouped means has exactly one row per distinct non-blank key of its
    input (a row with a blank key cell belongs to no group), holding the
    arithmetic mean of the non-blank prices of the input rows with that key,
    rounded to a float64, or NaN when there is no such price: [monthly_price]
    groups the whole frame by (Month, Destination), [avg_price_stops] groups
    the filtered table by Total_Stops, [price_by_source] groups the whole
    frame by Source. *)
Theorem C2_grouped_means_skip_blanks (month_of : string -> string)
    (rnd : Q -> Q) (df : NaFrame)
    (airline source destination : option string) :
  group_means pair_dec rnd
              (fun r => both (Some (Month month_of r)) (Destination r)) df
              (monthly_price month_of rnd df) /\
  group_means string_dec rnd Total_Stops
              (filtered_data df airline source destination)
              (avg_price_stops rnd
                 (filtered_data df airline source destination)) /\
  group_means string_dec rnd Source df (price_by_source rnd df).
Proof.
  split; [| split].
  - apply groupby_mean_na_group_means. apply Claims.pair_eqb_eq.
  - apply groupby_mean_na_group_means. apply String.eqb_eq.
  - apply groupby_mean_na_group_means. apply String.eqb_eq.
Qed.

(** Against C2 as stated: in the two-row workbook whose second Source cell
    is blank, two distinct keys occur in the Source column, the blank one
    has no row in [price_by_source], and the price of its row enters no
    mean. *)
Lemma C2_blank_key_has_no_row :
  length (unique (map Source with_blank_source)) = 2 /\
  price_by_source exact with_blank_source = [("Banglore", Some (3897 # 1)%Q)] /\
  ~ every_key_has_a_row (map Source with_blank_source)
                        (price_by_source exact with_blank_source).
Proof.
  split; [reflexivity |]. split; [reflexivity |].
  intros H. specialize (H None). simpl in H.
  destruct H as [H | []]; [tauto | discriminate].
Qed.

(** X1: the table behind the "Price by Airline and Total Stops" chart has one
    row per distinct pair of non-blank Airline and Total_Stops cells of the
    frame, holding the rounded mean of the non-blank prices of the rows with
    that pair (NaN when there is none); a row with a blank Airline or
    Total_Stops cell belongs to no group. *)
Theorem X1_price_by_airline_stops_skips_blanks (rnd : Q -> Q) (df : NaFrame) :
  group_means pair_dec rnd (fun r => both (Airline r) (Total_Stops r)) df
              (price_by_airline_stops rnd df).
Proof. apply groupby_mean_na_group_means. apply Claims.pair_eqb_eq. Qed.

Lemma keys_are_present_options (rnd : Q -> Q) (col : NaRow -> option string)
    (df : NaFrame) :
  Permutation
    (map (fun g => Some (fst g))
         (groupby_mean String.eqb String.leb rnd col df))
    (filter present (unique (map col df))).
Proof.
  destruct (groupby_mean_na_group_means string String.eqb String.leb
              string_dec rnd String.eqb_eq col df) as (Hnd & Hk & _).
  apply NoDup_Permutation.
  - rewrite <- (map_map fst Some).
    apply Injective_map_NoDup; [| assumption].
    intros x y H. now inversion H.
  - apply NoDup_filter. apply unique_from_na_NoDup.
  - intros c. rewrite <- (map_map fst Some), in_map_iff, filter_In, unique_na_In.
    split.
    + intros [k [<- Hin]]. apply Hk in Hin. destruct Hin as [r [Hr Hc]].
      split; [| reflexivity]. rewrite <- Hc. now apply in_map.
    + intros [Hin Hp]. destruct c as [k|]; [| discriminate].
      exists k. split; [reflexivity |]. apply Hk.
      apply in_map_iff in Hin. destruct Hin as [r [Hc Hr]]. now exists r.
Qed.

(** X3: the bars of the "Average Price by Source City" chart are, up to
    order, the non-blank options of the source select box other than "All"
    (the NaN option of a column with a blank cell has no bar); likewise the
    bars of "Average Price by Total Stops" are the distinct non-blank
    Total_Stops values of the filtered table. *)
Theorem X3_one_bar_per_present_option (rnd : Q -> Q)
    (df filtered : NaFrame) :
  Permutation (map (fun g => Some (fst g)) (price_by_source rnd df))
              (filter present (unique (map Source df))) /\
  Permutation (map (fun g => Some (fst g)) (avg_price_stops rnd filtered))
              (filter present (unique (map Total_Stops filtered))).
Proof. split; apply keys_are_present_options. Qed.

Lemma present_option_has_rows (col : NaRow -> option string)
    (p : NaRow -> bool) (df : NaFrame) (v : string) :
  (forall r, col r = Some v -> p r = true) ->
  In (Some v) (unique (map col df)) -> filter p df <> [].
Proof.
  intros Hp Hin Hnil. apply (proj1 (unique_na_In (map col df) (Some v))) in Hin.
  apply in_map_iff in Hin. destruct Hin as [r [Hr Hin]].
  assert (Hk : In r (filter p df)) by (apply filter_In; auto).
  rewrite Hnil in Hk. destruct Hk.
Qed.

Lemma filter_nothing {A} (p : A -> bool) (l : list A) :
  (forall a, p a = false) -> filter p l = [].
Proof.
  intros Hp. induction l as [|a l IH]; simpl; [reflexivity |].
  now rewrite Hp.
Qed.

Lemma keepsb_na_true (a s d : option string) (r : NaRow) :
  keepsb a s d r = true ->
  (Airline r = a \/ a = Some "All") /\
  (Source r = s \/ s = Some "All") /\
  (Destination r = d \/ d = Some "All").
Proof.
  unfold keepsb, is_all.
  rewrite !andb_true_iff, !orb_true_iff, !cell_eq_true.
  intros [[Ha Hs] Hd]. repeat split.
  - destruct Ha as [[x [-> ->]] | [x [-> [= <-]]]]; tauto.
  - destruct Hs as [[x [-> ->]] | [x [-> [= <-]]]]; tauto.
  - destruct Hd as [[x [-> ->]] | [x [-> [= <-]]]]; tauto.
Qed.

(** X7: each non-blank option a select box offers besides "All", picked
    with "All" in the two other boxes, gives a non-empty filtered table all
    of whose rows carry the picked value; the NaN option, which the box of a
    column with a blank cell offers, gives an empty table whatever the two
    other boxes show. *)
Theorem X7_options_and_their_rows (df : NaFrame) (v : string) :
  v <> "All" ->
  (In (Some v) (options_of (map Airline df)) ->
   filtered_data df (Some v) (Some "All") (Some "All") <> [] /\
   forall r, In r (filtered_data df (Some v) (Some "All") (Some "All")) ->
             Airline r = Some v) /\
  (In (Some v) (options_of (map Source df)) ->
   filtered_data df (Some "All") (Some v) (Some "All") <> [] /\
   forall r, In r (filtered_data df (Some "All") (Some v) (Some "All")) ->
             Source r = Some v) /\
  (In (Some v) (options_of (map Destination df)) ->
   filtered_data df (Some "All") (Some "All") (Some v) <> [] /\
   forall r, In r (filtered_data df (Some "All") (Some "All") (Some v)) ->
             Destination r = Some v) /\
  (forall s d, filtered_data df None s d = []) /\
  (forall a d, filtered_data df a None d = []) /\
  (forall a s, filtered_data df a s None = []).
Proof.
  intros Hv. rewrite !filtered_data_na_filter.
  assert (Hopt : forall col, In (Some v) (options_of col) ->
                             In (Some v) (unique col)).
  { intros col [[= H] | H]; [congruence | assumption]. }
  assert (Hall : Some v <> Some "All") by congruence.
  assert (Hself : cell_eq (Some v) (Some v) = true)
    by (apply cell_eq_true; now exists v).
  assert (HisAll : is_all (Some "All") = true) by reflexivity.
  assert (Hrows : forall a s d r,
            In r (filter (keepsb a s d) df) -> keepsb a s d r = true).
  { intros a s d r Hr. now apply filter_In in Hr. }
  split; [| split; [| split; [| split; [| split]]]].
  - intros Hin. apply Hopt in Hin. split.
    + apply (present_option_has_rows Airline) with (v := v); [| assumption].
      intros r Hr. unfold keepsb. rewrite Hr, Hself, HisAll.
      now rewrite !orb_true_r.
    + intros r Hr. apply Hrows, keepsb_na_true in Hr. tauto.
  - intros Hin. apply Hopt in Hin. split.
    + apply (present_option_has_rows Source) with (v := v); [| assumption].
      intros r Hr. unfold keepsb. rewrite Hr, Hself, HisAll.
      now rewrite !orb_true_r.
    + intros r Hr. apply Hrows, keepsb_na_true in Hr. tauto.
  - intros Hin. apply Hopt in Hin. split.
    + apply (present_option_has_rows Destination) with (v := v);
        [| assumption].
      intros r Hr. unfold keepsb. rewrite Hr, Hself, HisAll.
      now rewrite !orb_true_r.
    + intros r Hr. apply Hrows, keepsb_na_true in Hr. tauto.
  - intros s d. rewrite filtered_data_na_filter. apply filter_nothing.
    intros r. unfold keepsb, is_all. now destruct (Airline r).
  - intros a d. rewrite filtered_data_na_filter. apply filter_nothing.
    intros r. unfold keepsb, is_all.
    destruct (Source r); simpl; now rewrite andb_false_r.
  - intros a s. rewrite filtered_data_na_filter. apply filter_nothing.
    intros r. unfold keepsb, is_all.
    destruct (Destination r); simpl; now rewrite andb_false_r.
Qed.

Lemma X7_options_and_their_rows_witness :
  "IndiGo" <> "All" /\
  In (Some "IndiGo") (options_of (map Airline with_blank_source)) /\
  filtered_data with_blank_source (Some "IndiGo") (Some "All") (Some "All")
    <> [] /\
  filtered_data with_blank_source (Some "All") None (Some "All") = [].
Proof.
  assert (Hv : "IndiGo" <> "All") by discriminate.
  assert (Hin : In (Some "IndiGo")
                   (options_of (map Airline with_blank_source)))
    by (simpl; tauto).
  destruct (X7_options_and_their_rows with_blank_source "IndiGo" Hv)
    as (Ha & _ & _ & _ & Hs & _).
  split; [exact Hv |]. split; [exact Hin |].
  split; [exact (proj1 (Ha Hin)) | exact (Hs (Some "All") (Some "All"))].
Defined.

End OnBlanks.
